(** * PicoClaw: provider resolution, credential refresh and the HTTP chat adapter

    A shallow embedding of
    - [pkg/providers]: [ExtractProtocol], [CreateProviderFromConfig],
      [getDefaultAPIBase], [createClaudeAuthProvider], [createCodexAuthProvider],
      [CreateProvider], [NewHTTPProvider], [HTTPProvider.Chat],
      [HTTPProvider.parseResponse];
    - [cmd/picoclaw]: [authModelsCmd];
    together with the parts of Go's [strings] package these functions call.

    Go strings are byte sequences, so they are Rocq [string]s (one [ascii] per
    byte).  A Go function returning [(value, error)] returns a pair whose second
    component is [option error]; a pointer that may be [nil] is an [option]. *)

From Stdlib Require Import String Ascii ZArith List Lia Bool DecimalString Floats.
From stdpp Require Import gmap strings.

Open Scope string_scope.
Open Scope Z_scope.

(** ** Go's [strings] package *)

(** [len(s)] *)
Definition len (s : string) : Z := Z.of_nat (String.length s).

(** [s[lo:hi]], [s[:hi]] and [s[lo:]] for indices within bounds. *)
Definition slice (s : string) (lo hi : Z) : string :=
  substring (Z.to_nat lo) (Z.to_nat (hi - lo)) s.

Definition slice_to (s : string) (hi : Z) : string := slice s 0 hi.

Definition slice_from (s : string) (lo : Z) : string := slice s lo (len s).

(** [strings.HasPrefix(s, prefix)]: [s] begins with the bytes of [prefix]. *)
Fixpoint HasPrefix (s pre : string) {struct pre} : bool :=
  match pre with
  | EmptyString => true
  | String c pre' =>
      match s with
      | String d s' => (c =? d)%char && HasPrefix s' pre'
      | EmptyString => false
      end
  end.

Arguments HasPrefix : simpl never.

(** Position of the first occurrence of [substr] in [s], counted from [i]. *)
Fixpoint indexFrom (i : Z) (s substr : string) : Z :=
  if HasPrefix s substr then i
  else match s with
       | EmptyString => -1
       | String _ s' => indexFrom (i + 1) s' substr
       end.

(** [strings.Index(s, substr)]: [-1] when [substr] does not occur. *)
Definition Index (s substr : string) : Z := indexFrom 0 s substr.

(** [strings.Contains(s, substr)] is [Index(s, substr) >= 0] in Go. *)
Definition Contains (s substr : string) : bool := 0 <=? Index s substr.

(** Whether the byte [c] occurs in [s]. *)
Fixpoint hasByte (c : ascii) (s : string) : bool :=
  match s with
  | EmptyString => false
  | String d s' => (d =? c)%char || hasByte c s'
  end.

(** The six ASCII bytes of Go's [asciiSpace] table: tab, line feed, vertical tab,
    form feed, carriage return and space. *)
Definition asciiSpace (c : ascii) : bool :=
  let n := N_of_ascii c in
  ((9 <=? n) && (n <=? 13) || (n =? 32))%N.

Definition byte (n : N) : ascii := ascii_of_N n.

(** UTF-8 encodings of the runes above U+007F for which [unicode.IsSpace] holds:
    U+0085 and U+00A0 take two bytes; U+1680, U+2000..U+200A, U+2028, U+2029,
    U+202F, U+205F and U+3000 take three. *)
Definition isSpace2 (c0 c1 : ascii) : bool :=
  let '(b0, b1) := (N_of_ascii c0, N_of_ascii c1) in
  ((b0 =? 194) && ((b1 =? 133) || (b1 =? 160)))%N.

Definition isSpace3 (c0 c1 c2 : ascii) : bool :=
  let '(b0, b1, b2) := (N_of_ascii c0, N_of_ascii c1, N_of_ascii c2) in
  ((b0 =? 225) && (b1 =? 154) && (b2 =? 128)
   || (b0 =? 226) && (b1 =? 128)
      && ((128 <=? b2) && (b2 <=? 138) || (b2 =? 168) || (b2 =? 169) || (b2 =? 175))
   || (b0 =? 226) && (b1 =? 129) && (b2 =? 159)
   || (b0 =? 227) && (b1 =? 128) && (b2 =? 128))%N.

(** [strings.TrimLeftFunc(s, unicode.IsSpace)]: drop leading white-space runes. *)
Fixpoint trimLeftSpace (s : string) : string :=
  match s with
  | EmptyString => EmptyString
  | String c0 s0 =>
      if asciiSpace c0 then trimLeftSpace s0
      else
        match s0 with
        | String c1 s1 =>
            if isSpace2 c0 c1 then trimLeftSpace s1
            else
              match s1 with
              | String c2 s2 => if isSpace3 c0 c1 c2 then trimLeftSpace s2 else s
              | EmptyString => s
              end
        | EmptyString => s
        end
  end.

(** The bytes of [s] in reverse order. *)
Fixpoint rev_string (s : string) : string :=
  match s with
  | EmptyString => EmptyString
  | String c s' => rev_string s' ++ String c EmptyString
  end.

(** [strings.TrimRightFunc(s, unicode.IsSpace)] on the reversed bytes: the last
    rune of [s] is white space exactly when [s] ends with one of the encodings
    above; read backwards the last byte [c0] comes first. *)
Fixpoint trimLeftSpaceRev (r : string) : string :=
  match r with
  | EmptyString => EmptyString
  | String c0 r0 =>
      if asciiSpace c0 then trimLeftSpaceRev r0
      else
        match r0 with
        | String c1 r1 =>
            if isSpace2 c1 c0 then trimLeftSpaceRev r1
            else
              match r1 with
              | String c2 r2 => if isSpace3 c2 c1 c0 then trimLeftSpaceRev r2 else r
              | EmptyString => r
              end
        | EmptyString => r
        end
  end.

Definition trimRightSpace (s : string) : string :=
  rev_string (trimLeftSpaceRev (rev_string s)).

(** [strings.TrimSpace(s)]: all leading and trailing white space removed, as
    defined by Unicode. *)
Definition TrimSpace (s : string) : string := trimRightSpace (trimLeftSpace s).

(** [strings.TrimRight(s, "/")] *)
Fixpoint dropLeadingSlashes (r : string) : string :=
  match r with
  | String c r' => if (c =? "/")%char then dropLeadingSlashes r' else r
  | EmptyString => EmptyString
  end.

Definition TrimRightSlash (s : string) : string :=
  rev_string (dropLeadingSlashes (rev_string s)).

(** Go's [strings.ToLower] maps ['A'..'Z'] to ['a'..'z'] when every byte of the
    string is ASCII, and otherwise applies [unicode.ToLower] rune by rune.  The
    Unicode case tables, the quoting of [%q] and URL parsing belong to Go's
    standard library; they are an interface here. *)
Class GoRuntime := {
  (** [strings.Map(unicode.ToLower, s)] *)
  mapUnicodeToLower : string -> string;
  (** [strconv.Quote(s)], the [%q] verb of [fmt] *)
  Quote : string -> string;
  (** [url.Parse(s)]: the parsed URL, [None] when parsing fails *)
  url_Parse : string -> option string
}.

Fixpoint isASCII (s : string) : bool :=
  match s with
  | EmptyString => true
  | String c s' => (N_of_ascii c <? 128)%N && isASCII s'
  end.

Definition lowerByte (c : ascii) : ascii :=
  let n := N_of_ascii c in
  if ((65 <=? n) && (n <=? 90))%N then ascii_of_N (n + 32) else c.

Fixpoint mapBytes (f : ascii -> ascii) (s : string) : string :=
  match s with
  | EmptyString => EmptyString
  | String c s' => String (f c) (mapBytes f s')
  end.

Definition ToLower `{GoRuntime} (s : string) : string :=
  if isASCII s then mapBytes lowerByte s else mapUnicodeToLower s.

(** [%d] of [fmt] for an [int]. *)
Definition fmt_d (n : Z) : string := NilZero.string_of_int (Z.to_int n).

(** The line feed of Go's ["\n"]. *)
Definition LF : string := String (byte 10) "".

(** ** Package [config]: the configuration the resolution reads

    [config.go] declares these structs; the fields are the ones the code under
    study reads. *)

Definition error := string.

Record ProviderConfig := {
  APIKey : string;
  APIBase : string;
  Proxy : string;
  AuthMethod : string;
  ConnectMode : string
}.

Record ProvidersConfig := {
  Anthropic : ProviderConfig;
  OpenAI : ProviderConfig;
  OpenRouter : ProviderConfig;
  Groq : ProviderConfig;
  Zhipu : ProviderConfig;
  VLLM : ProviderConfig;
  Gemini : ProviderConfig;
  Nvidia : ProviderConfig;
  Ollama : ProviderConfig;
  Moonshot : ProviderConfig;
  ShengSuanYun : ProviderConfig;
  DeepSeek : ProviderConfig;
  Cerebras : ProviderConfig;
  VolcEngine : ProviderConfig;
  GitHubCopilot : ProviderConfig;
  Antigravity : ProviderConfig;
  Qwen : ProviderConfig
}.

(** One entry of [model_list]. *)
Record ModelConfig := {
  mc_ModelName : string;
  mc_Model : string;
  mc_APIKey : string;
  mc_APIBase : string;
  mc_Proxy : string;
  mc_AuthMethod : string;
  mc_ConnectMode : string
}.

Record AgentDefaults := {
  Workspace : string;
  Provider : string;
  Model : string
}.

Record AgentsConfig := { Defaults : AgentDefaults }.

Record Config := {
  Agents : AgentsConfig;
  Providers : ProvidersConfig;
  ModelList : list ModelConfig
}.

(** The requested model, [cfg.Agents.Defaults.Model]. *)
Abbreviation requested cfg := (Model (Defaults (Agents cfg))).

(** Methods of [*Config] that [config.go] defines. *)
Class ConfigMethods := {
  (** [cfg.GetModelConfig(name)]: the entry of [model_list] for [name], or an error *)
  GetModelConfig : Config -> string -> option ModelConfig * option error;
  (** [cfg.WorkspacePath()] *)
  WorkspacePath : Config -> string
}.

(** Modelled from the spec: [GetModelConfig], which [config.go] defines; by section
    4.2 it finds "an entry whose logical name or qualified model string matches"
    the requested model. *)
Definition GetModelConfig_spec (cfg : Config) (name : string)
  : option ModelConfig * option error :=
  match List.find (fun mc => (mc_ModelName mc =? name)%string || (mc_Model mc =? name)%string)
          (ModelList cfg) with
  | Some mc => (Some mc, None)
  | None => (None, Some ("model not found in model_list: " ++ name))
  end.

(** ** Package [auth]: stored credentials *)

(** A [time.Time], as nanoseconds since Go's zero time. *)
Definition Time : Type := Z.

Definition IsZero (t : Time) : bool := t =? 0.

Record AuthCredential := {
  AccessToken : string;
  RefreshToken : string;
  AccountID : string;
  ExpiresAt : Time;
  cred_Provider : string;
  cred_AuthMethod : string;
  Email : string;
  ProjectID : string
}.

(** The credential file: unreadable, or a map from provider name to credential. *)
Inductive Store :=
| Unreadable (e : error)
| Stored (Credentials : gmap string AuthCredential).

(** Modelled from the spec: [auth.GetCredential], the Credential Store's
    [get(family)] of section 6; loading the store can fail. *)
Definition GetCredential (st : Store) (provider : string)
  : option AuthCredential * option error :=
  match st with
  | Unreadable e => (None, Some e)
  | Stored creds => (creds !! provider, None)
  end.

(** Modelled from the spec: [auth.SetCredential], the Credential Store's
    [set(family, credential)]: it "upserts the Credential Store entry for that
    family - full replace, not merge". *)
Definition SetCredential (st : Store) (provider : string) (cred : AuthCredential)
  : Store * option error :=
  match st with
  | Unreadable e => (st, Some e)
  | Stored creds => (Stored (<[provider := cred]> creds), None)
  end.

(** Modelled from the spec: the refresh window of section 4.3, five minutes by
    section 8. *)
Definition refreshWindow : Z := 5 * 60 * 1000000000.

(** Modelled from the spec: [cred.NeedsRefresh()]; by section 4.3 a credential
    "is needs_refresh when expiry minus now is below the window", and a
    credential without expiry never needs one. *)
Definition NeedsRefresh (now : Time) (c : AuthCredential) : bool :=
  if IsZero (ExpiresAt c) then false else ExpiresAt c - now <? refreshWindow.

(** ** Package [providers]: the adapters *)

Record HTTPClient := {
  (** [Timeout], in seconds *)
  Timeout : Z;
  (** the proxy of [Transport], [None] for the default transport *)
  TransportProxy : option string
}.

Record HTTPProvider := {
  apiKey : string;
  apiBase : string;
  httpClient : HTTPClient
}.

(** The token sources handed to the OAuth-backed adapters. *)
Inductive TokenSource :=
| ClaudeTokenSource      (* createClaudeTokenSource() *)
| CodexTokenSource       (* createCodexTokenSource() *)
| CodexCliTokenSource.   (* CreateCodexCliTokenSource() *)

(** The implementations of [LLMProvider] that resolution can return, each with
    the arguments of its constructor function. *)
Inductive LLMProvider :=
| HTTP (p : HTTPProvider)
| ClaudeProvider (token : string)
| ClaudeProviderWithTokenSource (token : string) (src : TokenSource)
| CodexProviderWithTokenSource (token accountID : string) (src : TokenSource)
| ClaudeCliProvider (workspace : string)
| CodexCliProvider (workspace : string)
| GitHubCopilotProvider (apiBase connectMode model : string)
| AntigravityProvider.

(** Constructors of the package that reach outside the process. *)
Class ProviderConstructors := {
  (** [NewGitHubCopilotProvider(uri, connectMode, model)] connects to the sidecar *)
  NewGitHubCopilotProvider : string -> string -> string -> option LLMProvider * option error
}.

(** What [CreateProvider] and [CreateProviderFromConfig] return:
    the provider, the model id and the error. *)
Definition Resolution : Type := option LLMProvider * string * option error.

Definition oneOf (s : string) (cases : list string) : bool :=
  existsb (String.eqb s) cases.

Definition nonEmpty (s : string) : bool := negb (s =? "")%string.

Definition NewHTTPProvider `{GoRuntime} (apiKey apiBase proxy : string) : HTTPProvider :=
  let client :=
    {| Timeout := 120;
       TransportProxy := if nonEmpty proxy then url_Parse proxy else None |} in
  {| apiKey := apiKey; apiBase := TrimRightSlash apiBase; httpClient := client |}.

(** [ExtractProtocol]: the loop over the bytes of the trimmed string returns at
    the first ['/']. *)
Fixpoint firstSlash (i : Z) (rest : string) : option Z :=
  match rest with
  | EmptyString => None
  | String c rest' => if (c =? "/")%char then Some i else firstSlash (i + 1) rest'
  end.

Definition ExtractProtocol (model : string) : string * string :=
  let model := TrimSpace model in
  match firstSlash 0 model with
  | Some i => (slice_to model i, slice_from model (i + 1))
  | None => ("openai", model)
  end.

Definition getDefaultAPIBase (protocol : string) : string :=
  if (protocol =? "openai")%string then "https://api.openai.com/v1"
  else if (protocol =? "openrouter")%string then "https://openrouter.ai/api/v1"
  else if (protocol =? "groq")%string then "https://api.groq.com/openai/v1"
  else if (protocol =? "zhipu")%string then "https://open.bigmodel.cn/api/paas/v4"
  else if (protocol =? "gemini")%string then "https://generativelanguage.googleapis.com/v1beta"
  else if (protocol =? "nvidia")%string then "https://integrate.api.nvidia.com/v1"
  else if (protocol =? "ollama")%string then "http://localhost:11434/v1"
  else if (protocol =? "moonshot")%string then "https://api.moonshot.cn/v1"
  else if (protocol =? "shengsuanyun")%string then "https://router.shengsuanyun.com/api/v1"
  else if (protocol =? "deepseek")%string then "https://api.deepseek.com/v1"
  else if (protocol =? "cerebras")%string then "https://api.cerebras.ai/v1"
  else if (protocol =? "volcengine")%string then "https://ark.cn-beijing.volces.com/api/v3"
  else if (protocol =? "qwen")%string then "https://dashscope.aliyuncs.com/compatible-mode/v1"
  else "".

(** The protocols of the first [case] of [CreateProviderFromConfig]: "all
    OpenAI-compatible HTTP providers". *)
Definition httpProtocols : list string :=
  ["openai"; "openrouter"; "groq"; "zhipu"; "gemini"; "nvidia"; "ollama"; "moonshot";
   "shengsuanyun"; "deepseek"; "cerebras"; "volcengine"; "vllm"; "qwen"].

Definition CreateProviderFromConfig `{GoRuntime} `{ProviderConstructors}
    (cfg : option ModelConfig) : Resolution :=
  match cfg with
  | None => (None, "", Some "config is nil")
  | Some cfg =>
      if (mc_Model cfg =? "")%string then (None, "", Some "model is required")
      else
        let '(protocol, modelID) := ExtractProtocol (mc_Model cfg) in
        if oneOf protocol httpProtocols then
          if (mc_APIKey cfg =? "")%string && (mc_APIBase cfg =? "")%string then
            (None, "",
             Some ("api_key or api_base is required for HTTP-based protocol " ++ Quote protocol))
          else
            let apiBase := mc_APIBase cfg in
            let apiBase := if (apiBase =? "")%string then getDefaultAPIBase protocol else apiBase in
            (Some (HTTP (NewHTTPProvider (mc_APIKey cfg) apiBase (mc_Proxy cfg))), modelID, None)
        else if oneOf protocol ["anthropic"] then
          if (mc_AuthMethod cfg =? "oauth")%string || (mc_AuthMethod cfg =? "token")%string then
            (Some (ClaudeProvider (mc_APIKey cfg)), modelID, None)
          else
            let apiBase := mc_APIBase cfg in
            let apiBase :=
              if (apiBase =? "")%string then "https://api.anthropic.com/v1" else apiBase in
            (Some (HTTP (NewHTTPProvider (mc_APIKey cfg) apiBase (mc_Proxy cfg))), modelID, None)
        else if oneOf protocol ["antigravity"] then
          (Some AntigravityProvider, modelID, None)
        else if oneOf protocol ["claude-cli"; "claudecli"] then
          let workspace := "." in
          (Some (ClaudeCliProvider workspace), modelID, None)
        else if oneOf protocol ["codex-cli"; "codexcli"] then
          let workspace := "." in
          (Some (CodexCliProvider workspace), modelID, None)
        else if oneOf protocol ["github-copilot"; "copilot"] then
          let apiBase := mc_APIBase cfg in
          let apiBase := if (apiBase =? "")%string then "localhost:4321" else apiBase in
          let connectMode := mc_ConnectMode cfg in
          let connectMode := if (connectMode =? "")%string then "grpc" else connectMode in
          match NewGitHubCopilotProvider apiBase connectMode modelID with
          | (_, Some err) => (None, "", Some err)
          | (provider, None) => (provider, modelID, None)
          end
        else
          (None, "",
           Some ("unknown protocol " ++ Quote protocol ++ " in model " ++ Quote (mc_Model cfg)))
  end.

(** [createClaudeAuthProvider] reads the stored credential of "anthropic". *)
Definition createClaudeAuthProvider (st : Store) : option LLMProvider * option error :=
  match GetCredential st "anthropic" with
  | (_, Some err) => (None, Some ("loading auth credentials: " ++ err))
  | (None, None) =>
      (None,
       Some "no credentials for anthropic. Run: picoclaw auth login --provider anthropic")
  | (Some cred, None) =>
      (Some (ClaudeProviderWithTokenSource (AccessToken cred) ClaudeTokenSource), None)
  end.

(** [createCodexAuthProvider] reads the stored credential of "openai". *)
Definition createCodexAuthProvider (st : Store) : option LLMProvider * option error :=
  match GetCredential st "openai" with
  | (_, Some err) => (None, Some ("loading auth credentials: " ++ err))
  | (None, None) =>
      (None, Some "no credentials for openai. Run: picoclaw auth login --provider openai")
  | (Some cred, None) =>
      (Some (CodexProviderWithTokenSource (AccessToken cred) (AccountID cred) CodexTokenSource),
       None)
  end.

(** The state of [CreateProvider] after a provider-selection step: it has
    returned, or it goes on with the values of [apiKey], [apiBase], [proxy] and
    [model]. *)
Inductive Selection :=
| Returned (r : Resolution)
| Selected (apiKey apiBase proxy model : string).

(** [apiBase = c.APIBase; if apiBase == "" { apiBase = dflt }] *)
Definition orDefault (base dflt : string) : string :=
  if (base =? "")%string then dflt else base.

Definition isOAuthOrToken (authMethod : string) : bool :=
  (authMethod =? "oauth")%string || (authMethod =? "token")%string.

(** The [switch providerName] of [CreateProvider]: "First, try to use explicitly
    configured provider".  No case assigns [proxy]. *)
Definition explicitProvider `{ConfigMethods} `{ProviderConstructors}
    (cfg : Config) (st : Store) (model providerName : string) : Selection :=
  let p := Providers cfg in
  let unset := Selected "" "" "" model in
  if nonEmpty providerName then
    if oneOf providerName ["groq"] then
      if nonEmpty (APIKey (Groq p)) then
        Selected (APIKey (Groq p))
          (orDefault (APIBase (Groq p)) "https://api.groq.com/openai/v1") "" model
      else unset
    else if oneOf providerName ["openai"; "gpt"] then
      if nonEmpty (APIKey (OpenAI p)) || nonEmpty (AuthMethod (OpenAI p)) then
        if (AuthMethod (OpenAI p) =? "codex-cli")%string then
          Returned (Some (CodexProviderWithTokenSource "" "" CodexCliTokenSource), model, None)
        else if isOAuthOrToken (AuthMethod (OpenAI p)) then
          let '(provider, err) := createCodexAuthProvider st in
          Returned (provider, model, err)
        else
          Selected (APIKey (OpenAI p))
            (orDefault (APIBase (OpenAI p)) "https://api.openai.com/v1") "" model
      else unset
    else if oneOf providerName ["anthropic"; "claude"] then
      if nonEmpty (APIKey (Anthropic p)) || nonEmpty (AuthMethod (Anthropic p)) then
        if isOAuthOrToken (AuthMethod (Anthropic p)) then
          let '(provider, err) := createClaudeAuthProvider st in
          Returned (provider, model, err)
        else
          Selected (APIKey (Anthropic p))
            (orDefault (APIBase (Anthropic p)) "https://api.anthropic.com/v1") "" model
      else unset
    else if oneOf providerName ["openrouter"] then
      if nonEmpty (APIKey (OpenRouter p)) then
        Selected (APIKey (OpenRouter p))
          (if nonEmpty (APIBase (OpenRouter p)) then APIBase (OpenRouter p)
           else "https://openrouter.ai/api/v1") "" model
      else unset
    else if oneOf providerName ["zhipu"; "glm"] then
      if nonEmpty (APIKey (Zhipu p)) then
        Selected (APIKey (Zhipu p))
          (orDefault (APIBase (Zhipu p)) "https://open.bigmodel.cn/api/paas/v4") "" model
      else unset
    else if oneOf providerName ["gemini"; "google"] then
      if nonEmpty (APIKey (Gemini p)) then
        Selected (APIKey (Gemini p))
          (orDefault (APIBase (Gemini p)) "https://generativelanguage.googleapis.com/v1beta")
          "" model
      else unset
    else if oneOf providerName ["vllm"] then
      if nonEmpty (APIBase (VLLM p)) then
        Selected (APIKey (VLLM p)) (APIBase (VLLM p)) "" model
      else unset
    else if oneOf providerName ["shengsuanyun"] then
      if nonEmpty (APIKey (ShengSuanYun p)) then
        Selected (APIKey (ShengSuanYun p))
          (orDefault (APIBase (ShengSuanYun p)) "https://router.shengsuanyun.com/api/v1")
          "" model
      else unset
    else if oneOf providerName ["claude-cli"; "claudecode"; "claude-code"] then
      let workspace := WorkspacePath cfg in
      let workspace := if (workspace =? "")%string then "." else workspace in
      Returned (Some (ClaudeCliProvider workspace), model, None)
    else if oneOf providerName ["codex-cli"; "codex-code"] then
      let workspace := WorkspacePath cfg in
      let workspace := if (workspace =? "")%string then "." else workspace in
      Returned (Some (CodexCliProvider workspace), model, None)
    else if oneOf providerName ["cerebras"] then
      if nonEmpty (APIKey (Cerebras p)) then
        Selected (APIKey (Cerebras p))
          (orDefault (APIBase (Cerebras p)) "https://api.cerebras.ai/v1") "" model
      else unset
    else if oneOf providerName ["deepseek"] then
      if nonEmpty (APIKey (DeepSeek p)) then
        Selected (APIKey (DeepSeek p))
          (orDefault (APIBase (DeepSeek p)) "https://api.deepseek.com/v1") ""
          (if negb (model =? "deepseek-chat")%string && negb (model =? "deepseek-reasoner")%string
           then "deepseek-chat" else model)
      else unset
    else if oneOf providerName ["qwen"] then
      if nonEmpty (APIKey (Qwen p)) then
        Selected (APIKey (Qwen p))
          (orDefault (APIBase (Qwen p)) "https://dashscope.aliyuncs.com/compatible-mode/v1")
          "" model
      else unset
    else if oneOf providerName ["github_copilot"; "copilot"] then
      let apiBase :=
        if nonEmpty (APIBase (GitHubCopilot p)) then APIBase (GitHubCopilot p)
        else "localhost:4321" in
      let '(provider, err) :=
        NewGitHubCopilotProvider apiBase (ConnectMode (GitHubCopilot p)) model in
      Returned (provider, model, err)
    else if oneOf providerName ["antigravity"; "google-antigravity"] then
      Returned (Some AntigravityProvider, model, None)
    else if oneOf providerName ["volcengine"; "doubao"] then
      if nonEmpty (APIKey (VolcEngine p)) then
        Selected (APIKey (VolcEngine p))
          (orDefault (APIBase (VolcEngine p)) "https://ark.cn-beijing.volces.com/api/v3")
          "" model
      else unset
    else unset
  else unset.

(** The keyed cases of the fallback [switch]: key, base (with its default) and
    proxy of one legacy provider entry. *)
Definition fromEntry (c : ProviderConfig) (dflt model : string) : Selection :=
  Selected (APIKey c) (orDefault (APIBase c) dflt) (Proxy c) model.

(** The [switch] of [CreateProvider] under "Fallback: detect provider from model
    name": the first case whose condition holds is taken. *)
Definition detectFromModel (cfg : Config) (st : Store) (model lowerModel : string)
  : Selection :=
  let p := Providers cfg in
  if (Contains lowerModel "kimi" || Contains lowerModel "moonshot"
      || HasPrefix model "moonshot/") && nonEmpty (APIKey (Moonshot p)) then
    fromEntry (Moonshot p) "https://api.moonshot.cn/v1" model
  else if HasPrefix model "openrouter/" || HasPrefix model "anthropic/"
          || HasPrefix model "openai/" || HasPrefix model "meta-llama/"
          || HasPrefix model "deepseek/" || HasPrefix model "google/" then
    Selected (APIKey (OpenRouter p))
      (if nonEmpty (APIBase (OpenRouter p)) then APIBase (OpenRouter p)
       else "https://openrouter.ai/api/v1")
      (Proxy (OpenRouter p)) model
  else if (Contains lowerModel "claude" || HasPrefix model "anthropic/")
          && (nonEmpty (APIKey (Anthropic p)) || nonEmpty (AuthMethod (Anthropic p))) then
    if isOAuthOrToken (AuthMethod (Anthropic p)) then
      let '(provider, err) := createClaudeAuthProvider st in
      Returned (provider, model, err)
    else fromEntry (Anthropic p) "https://api.anthropic.com/v1" model
  else if (Contains lowerModel "gpt" || HasPrefix model "openai/")
          && (nonEmpty (APIKey (OpenAI p)) || nonEmpty (AuthMethod (OpenAI p))) then
    if isOAuthOrToken (AuthMethod (OpenAI p)) then
      let '(provider, err) := createCodexAuthProvider st in
      Returned (provider, model, err)
    else fromEntry (OpenAI p) "https://api.openai.com/v1" model
  else if (Contains lowerModel "gemini" || HasPrefix model "google/")
          && nonEmpty (APIKey (Gemini p)) then
    fromEntry (Gemini p) "https://generativelanguage.googleapis.com/v1beta" model
  else if (Contains lowerModel "glm" || Contains lowerModel "zhipu" || Contains lowerModel "zai")
          && nonEmpty (APIKey (Zhipu p)) then
    fromEntry (Zhipu p) "https://open.bigmodel.cn/api/paas/v4" model
  else if (Contains lowerModel "groq" || HasPrefix model "groq/")
          && nonEmpty (APIKey (Groq p)) then
    fromEntry (Groq p) "https://api.groq.com/openai/v1" model
  else if (Contains lowerModel "qwen" || HasPrefix model "qwen/")
          && nonEmpty (APIKey (Qwen p)) then
    fromEntry (Qwen p) "https://dashscope.aliyuncs.com/compatible-mode/v1" model
  else if (Contains lowerModel "nvidia" || HasPrefix model "nvidia/")
          && nonEmpty (APIKey (Nvidia p)) then
    fromEntry (Nvidia p) "https://integrate.api.nvidia.com/v1" model
  else if (Contains lowerModel "cerebras" || HasPrefix model "cerebras/")
          && nonEmpty (APIKey (Cerebras p)) then
    fromEntry (Cerebras p) "https://api.cerebras.ai/v1" model
  else if (Contains lowerModel "ollama" || HasPrefix model "ollama/")
          && nonEmpty (APIKey (Ollama p)) then
    fromEntry (Ollama p) "http://localhost:11434/v1" model
  else if (Contains lowerModel "doubao" || HasPrefix lowerModel "doubao"
           || Contains lowerModel "volcengine") && nonEmpty (APIKey (VolcEngine p)) then
    fromEntry (VolcEngine p) "https://ark.cn-beijing.volces.com/api/v3" model
  else if nonEmpty (APIBase (VLLM p)) then
    Selected (APIKey (VLLM p)) (APIBase (VLLM p)) (Proxy (VLLM p)) model
  else if nonEmpty (APIKey (OpenRouter p)) then
    Selected (APIKey (OpenRouter p))
      (if nonEmpty (APIBase (OpenRouter p)) then APIBase (OpenRouter p)
       else "https://openrouter.ai/api/v1")
      (Proxy (OpenRouter p)) model
  else Returned (None, "", Some ("no API key configured for model: " ++ model)).

(** The two provider-selection steps that follow the [model_list] lookup. *)
Definition selectLegacy `{GoRuntime} `{ConfigMethods} `{ProviderConstructors}
    (cfg : Config) (st : Store) : Selection :=
  let model := Model (Defaults (Agents cfg)) in
  let providerName := ToLower (Provider (Defaults (Agents cfg))) in
  let lowerModel := ToLower model in
  match explicitProvider cfg st model providerName with
  | Returned r => Returned r
  | Selected apiKey apiBase proxy model' =>
      if (apiKey =? "")%string && (apiBase =? "")%string
      then detectFromModel cfg st model' lowerModel
      else Selected apiKey apiBase proxy model'
  end.

(** The checks that end [CreateProvider]. *)
Definition finish `{GoRuntime} (apiKey apiBase proxy model : string) : Resolution :=
  if (apiKey =? "")%string && negb (HasPrefix model "bedrock/") then
    (None, "", Some ("no API key configured for provider (model: " ++ model ++ ")"))
  else if (apiBase =? "")%string then
    (None, "", Some ("no API base configured for provider (model: " ++ model ++ ")"))
  else (Some (HTTP (NewHTTPProvider apiKey apiBase proxy)), model, None).

(** What [CreateProvider] makes of the result of [CreateProviderFromConfig]. *)
Definition wrapRouteError (r : Resolution) : Resolution :=
  match r with
  | (_, _, Some err) => (None, "", Some ("failed to create provider from model_list: " ++ err))
  | (provider, modelID, None) => (provider, modelID, None)
  end.

(** Whether [CreateProvider] returns from its [model_list] block, and with what. *)
Definition fromModelList `{GoRuntime} `{ConfigMethods} `{ProviderConstructors}
    (cfg : Config) : option Resolution :=
  let model := Model (Defaults (Agents cfg)) in
  if 0 <? Z.of_nat (length (ModelList cfg)) then
    match GetModelConfig cfg model with
    | (modelCfg, None) => Some (wrapRouteError (CreateProviderFromConfig modelCfg))
    | (_, Some _) => None
    end
  else None.

(** [CreateProvider].  The credential file it reads through [auth.GetCredential]
    is the argument [st]; the lines it prints (the deprecation warning and the
    Ollama trace) are not part of what it returns and are left out. *)
Definition CreateProvider `{GoRuntime} `{ConfigMethods} `{ProviderConstructors}
    (cfg : Config) (st : Store) : Resolution :=
  match fromModelList cfg with
  | Some r => r
  | None =>
      match selectLegacy cfg st with
      | Returned r => r
      | Selected apiKey apiBase proxy model => finish apiKey apiBase proxy model
      end
  end.

(** [CreateProvider] gets past its [model_list] block: the list is empty, or
    the lookup of the requested model fails. *)
Definition routeMiss `{ConfigMethods} (cfg : Config) : Prop :=
  ModelList cfg = [] \/ snd (GetModelConfig cfg (requested cfg)) <> None.

(** ** Package [providers]: the HTTP adapter *)

(** The outcome of a standard-library call that yields a value or an error. *)
Inductive result (T : Type) :=
| Ok (v : T)
| Err (e : error).

Arguments Ok {T} v.
Arguments Err {T} e.

(** Types of the package declared outside the files under study. *)
Class WireTypes := {
  Message : Type;
  ToolDefinition : Type;
  UsageInfo : Type
}.

(** The dynamic values ([interface{}]) stored in the option map and in the
    request body. *)
Inductive any `{WireTypes} :=
| AString (s : string)
| AInt (n : Z)
| AFloat (f : float)
| AMessages (l : list Message)
| ATools (l : list ToolDefinition).

(** A decoded JSON value, as [encoding/json] stores it in an [interface{}]. *)
#[warning="-register-all"]
Inductive JSON :=
| JNull
| JBool (b : bool)
| JNumber (f : float)
| JString (s : string)
| JArray (l : list JSON)
| JObject (fields : list (string * JSON)).

Record FunctionCall := {
  fc_Name : string;
  fc_Arguments : string;
  fc_ThoughtSignature : string
}.

Record ToolCall := {
  tc_ID : string;
  tc_Type : string;
  tc_Function : option FunctionCall;
  tc_Name : string;
  tc_Arguments : gmap string JSON
}.

Record LLMResponse `{WireTypes} := {
  Content : string;
  ToolCalls : list ToolCall;
  FinishReason : string;
  Usage : option UsageInfo
}.

(** The anonymous struct [apiResponse] of [parseResponse]. *)
Record wireFunction := {
  wf_Name : string;
  wf_Arguments : string;
  wf_ThoughtSignature : string
}.

Record wireToolCall := {
  wt_ID : string;
  wt_Type : string;
  wt_Function : option wireFunction
}.

Record wireMessage := {
  wm_Content : string;
  wm_ToolCalls : list wireToolCall
}.

Record wireChoice := {
  wc_Message : wireMessage;
  wc_FinishReason : string
}.

Record apiResponse `{WireTypes} := {
  Choices : list wireChoice;
  wire_Usage : option UsageInfo
}.

Record Request := {
  Method : string;
  URL : string;
  Header : gmap string string;
  RequestBody : string
}.

Record Response := {
  StatusCode : Z;
  (** what [io.ReadAll(resp.Body)] yields *)
  ResponseBody : result string
}.

(** [encoding/json] and [net/http], as the adapter uses them. *)
Class Wire `{WireTypes} := {
  (** [json.Marshal(requestBody)] *)
  json_Marshal : gmap string any -> result string;
  (** [http.NewRequestWithContext(ctx, method, url, body)], with no header yet *)
  http_NewRequest : string -> string -> string -> result Request;
  (** [client.Do(req)] *)
  http_Do : HTTPClient -> Request -> result Response;
  (** [json.Unmarshal(body, &apiResponse)] *)
  json_Unmarshal_response : string -> result apiResponse;
  (** [json.Unmarshal([]byte(argsStr), &arguments)] on an empty map: the map
      afterwards, and the error *)
  json_Unmarshal_arguments : string -> gmap string JSON * option error
}.

(** [req.Header.Set(key, value)] *)
Definition Header_Set (req : Request) (key value : string) : Request :=
  {| Method := Method req; URL := URL req;
     Header := <[key := value]> (Header req); RequestBody := RequestBody req |}.

(** The body of the loop over [choice.Message.ToolCalls]. *)
Definition convertToolCall `{Wire} (tc : wireToolCall) : ToolCall :=
  let '(name, thoughtSignature, argsStr, arguments) :=
    match wt_Function tc with
    | Some f =>
        let argsStr := wf_Arguments f in
        let arguments :=
          if nonEmpty argsStr then
            match json_Unmarshal_arguments argsStr with
            | (arguments, Some _) => <["raw" := JString argsStr]> arguments
            | (arguments, None) => arguments
            end
          else ∅ in
        (wf_Name f, wf_ThoughtSignature f, argsStr, arguments)
    | None => ("", "", "", ∅)
    end in
  {| tc_ID := wt_ID tc;
     tc_Type := wt_Type tc;
     tc_Function := Some {| fc_Name := name; fc_Arguments := argsStr;
                            fc_ThoughtSignature := thoughtSignature |};
     tc_Name := name;
     tc_Arguments := arguments |}.

(** [HTTPProvider.parseResponse] *)
Definition parseResponse `{Wire} (body : string) : option LLMResponse * option error :=
  match json_Unmarshal_response body with
  | Err err => (None, Some ("failed to unmarshal response: " ++ err))
  | Ok apiResponse =>
      match Choices apiResponse with
      | [] =>
          (Some {| Content := ""; ToolCalls := []; FinishReason := "stop"; Usage := None |},
           None)
      | choice :: _ =>
          let toolCalls := map convertToolCall (wm_ToolCalls (wc_Message choice)) in
          (Some {| Content := wm_Content (wc_Message choice);
                   ToolCalls := toolCalls;
                   FinishReason := wc_FinishReason choice;
                   Usage := wire_Usage apiResponse |},
           None)
      end
  end.

(** The prefixes [Chat] strips from the model name. *)
Definition strippedPrefixes : list string :=
  ["moonshot"; "nvidia"; "groq"; "ollama"; "qwen"; "cerebras"].

(** "Strip provider prefix from model name" *)
Definition stripProviderPrefix (model : string) : string :=
  let idx := Index model "/" in
  if negb (idx =? -1) then
    let pre := slice_to model idx in
    if oneOf pre strippedPrefixes then slice_from model (idx + 1) else model
  else model.

(** The [requestBody] map that [Chat] marshals. *)
Definition buildRequestBody `{GoRuntime} `{WireTypes}
    (messages : list Message) (tools : list ToolDefinition) (model : string)
    (options : gmap string any) : gmap string any :=
  let model := stripProviderPrefix model in
  let requestBody : gmap string any :=
    <["messages" := AMessages messages]> (<["model" := AString model]> ∅) in
  let requestBody :=
    if 0 <? Z.of_nat (length tools) then
      <["tool_choice" := AString "auto"]> (<["tools" := ATools tools]> requestBody)
    else requestBody in
  let requestBody :=
    match options !! "max_tokens" with
    | Some (AInt maxTokens) =>
        let lowerModel := ToLower model in
        if Contains lowerModel "glm" || Contains lowerModel "o1" then
          <["max_completion_tokens" := AInt maxTokens]> requestBody
        else <["max_tokens" := AInt maxTokens]> requestBody
    | _ => requestBody
    end in
  match options !! "temperature" with
  | Some (AFloat temperature) =>
      let lowerModel := ToLower model in
      if Contains lowerModel "kimi" && Contains lowerModel "k2" then
        <["temperature" := AFloat 1%float]> requestBody
      else <["temperature" := AFloat temperature]> requestBody
  | _ => requestBody
  end.

(** The first half of [HTTPProvider.Chat], from building the request to
    [httpClient.Do]: the response received, or the error [Chat] returns.
    Cancellation through [ctx] shows as an error of [http_Do]. *)
Definition sendChatRequest `{GoRuntime} `{Wire} (p : HTTPProvider)
    (messages : list Message) (tools : list ToolDefinition) (model : string)
    (options : gmap string any) : result Response :=
  let requestBody := buildRequestBody messages tools model options in
  match json_Marshal requestBody with
  | Err err => Err ("failed to marshal request: " ++ err)
  | Ok jsonData =>
      match http_NewRequest "POST" (apiBase p ++ "/chat/completions") jsonData with
      | Err err => Err ("failed to create request: " ++ err)
      | Ok req =>
          let req := Header_Set req "Content-Type" "application/json" in
          let req :=
            if nonEmpty (apiKey p) then Header_Set req "Authorization" ("Bearer " ++ apiKey p)
            else req in
          match http_Do (httpClient p) req with
          | Err err => Err ("failed to send request: " ++ err)
          | Ok resp => Ok resp
          end
      end
  end.

(** [HTTPProvider.Chat] *)
Definition Chat `{GoRuntime} `{Wire} (p : HTTPProvider)
    (messages : list Message) (tools : list ToolDefinition) (model : string)
    (options : gmap string any) : option LLMResponse * option error :=
  if (apiBase p =? "")%string then (None, Some "API base not configured")
  else
    match sendChatRequest p messages tools model options with
    | Err err => (None, Some err)
    | Ok resp =>
        match ResponseBody resp with
        | Err err => (None, Some ("failed to read response: " ++ err))
        | Ok body =>
            if negb (StatusCode resp =? 200) then
              (None,
               Some ("API request failed:" ++ LF ++ "  Status: "
                     ++ fmt_d (StatusCode resp) ++ LF ++ "  Body:   " ++ body))
            else parseResponse body
        end
    end.

(** ** Command [picoclaw auth models] *)

Record AntigravityModelInfo := {
  ID : string;
  DisplayName : string;
  IsExhausted : bool
}.

(** The calls of [authModelsCmd] that go over the network. *)
Class AuthNetwork := {
  OAuthProviderConfig : Type;
  (** [auth.GoogleAntigravityOAuthConfig()] *)
  GoogleAntigravityOAuthConfig : OAuthProviderConfig;
  (** [auth.RefreshAccessToken(cred, cfg)], the token-refresh exchange *)
  RefreshAccessToken : AuthCredential -> OAuthProviderConfig -> result AuthCredential;
  (** [providers.FetchAntigravityModels(accessToken, projectID)] *)
  FetchAntigravityModels : string -> string -> result (list AntigravityModelInfo)
}.

(** [fmt.Println(s)] appends a line feed. *)
Definition Println (s : string) : string := s ++ LF.

(** The check mark U+2713 and the ballot X U+2717, in UTF-8. *)
Definition checkMark : string := String (byte 226) (String (byte 156) (String (byte 147) "")).
Definition ballotX : string := String (byte 226) (String (byte 156) (String (byte 151) "")).

(** One line of the model listing. *)
Definition modelLine (m : AntigravityModelInfo) : string :=
  let status := if IsExhausted m then ballotX ++ " (quota exhausted)" else checkMark in
  let name :=
    if nonEmpty (DisplayName m) then ID m ++ " (" ++ DisplayName m ++ ")" else ID m in
  "  " ++ status ++ " " ++ name ++ LF.

(** What [authModelsCmd] prints once it holds the credential [cred] to use. *)
Definition listModels `{AuthNetwork} (cred : AuthCredential) : string :=
  let projectID := ProjectID cred in
  if (projectID =? "")%string then Println "No project ID stored. Try logging in again."
  else
    let out := "Fetching models for project: " ++ projectID ++ LF ++ LF in
    match FetchAntigravityModels (AccessToken cred) projectID with
    | Err err => out ++ "Error fetching models: " ++ err ++ LF
    | Ok models =>
        if Z.of_nat (length models) =? 0 then out ++ Println "No models available."
        else
          out ++ Println "Available Antigravity Models:"
              ++ Println "-----------------------------"
              ++ String.concat "" (map modelLine models)
    end.

(** [authModelsCmd] at time [now] on the credential file [st]: the file
    afterwards and the text printed. *)
Definition authModelsCmd `{AuthNetwork} (now : Time) (st : Store) : Store * string :=
  match GetCredential st "google-antigravity" with
  | (Some cred, None) =>
      let '(cred, st) :=
        if NeedsRefresh now cred && nonEmpty (RefreshToken cred) then
          let oauthCfg := GoogleAntigravityOAuthConfig in
          match RefreshAccessToken cred oauthCfg with
          | Ok refreshed => (refreshed, fst (SetCredential st "google-antigravity" refreshed))
          | Err _ => (cred, st)
          end
        else (cred, st) in
      (st, listModels cred)
  | _ =>
      (st, Println "Not logged in to Google Antigravity."
           ++ Println "Run: picoclaw auth login --provider google-antigravity")
  end.

(** ** Instances used to run the definitions on concrete inputs *)

(** A runtime whose Unicode lower-casing leaves non-ASCII input alone and that
    accepts every URL. *)
Definition asciiRuntime : GoRuntime :=
  {| mapUnicodeToLower := fun s => s;
     Quote := fun s => String (byte 34) s ++ String (byte 34) "";
     url_Parse := fun s => Some s |}.

Definition specConfigMethods : ConfigMethods :=
  {| GetModelConfig := GetModelConfig_spec;
     WorkspacePath := fun cfg => Workspace (Defaults (Agents cfg)) |}.

(** A sidecar that is never reachable. *)
Definition noSidecar : ProviderConstructors :=
  {| NewGitHubCopilotProvider := fun _ _ _ => (None, Some "connection refused") |}.

Definition noProvider : ProviderConfig :=
  {| APIKey := ""; APIBase := ""; Proxy := ""; AuthMethod := ""; ConnectMode := "" |}.

(** [ProvidersConfig{}] *)
Definition noProviders : ProvidersConfig :=
  {| Anthropic := noProvider; OpenAI := noProvider; OpenRouter := noProvider;
     Groq := noProvider; Zhipu := noProvider; VLLM := noProvider; Gemini := noProvider;
     Nvidia := noProvider; Ollama := noProvider; Moonshot := noProvider;
     ShengSuanYun := noProvider; DeepSeek := noProvider; Cerebras := noProvider;
     VolcEngine := noProvider; GitHubCopilot := noProvider; Antigravity := noProvider;
     Qwen := noProvider |}.

Definition mkConfig (provider model : string) (ps : ProvidersConfig)
    (routes : list ModelConfig) : Config :=
  {| Agents := {| Defaults := {| Workspace := "~/.picoclaw/workspace";
                                 Provider := provider; Model := model |} |};
     Providers := ps;
     ModelList := routes |}.

Definition mkRoute (name model key base auth : string) : ModelConfig :=
  {| mc_ModelName := name; mc_Model := model; mc_APIKey := key; mc_APIBase := base;
     mc_Proxy := ""; mc_AuthMethod := auth; mc_ConnectMode := "" |}.

Definition keyOnly (key : string) : ProviderConfig :=
  {| APIKey := key; APIBase := ""; Proxy := ""; AuthMethod := ""; ConnectMode := "" |}.

Definition emptyStore : Store := Stored ∅.

(** A [providers] section in which only the given entries are filled in. *)
Definition providersWith (anthropic groq vllm deepseek : ProviderConfig) : ProvidersConfig :=
  {| Anthropic := anthropic; OpenAI := noProvider; OpenRouter := noProvider;
     Groq := groq; Zhipu := noProvider; VLLM := vllm; Gemini := noProvider;
     Nvidia := noProvider; Ollama := noProvider; Moonshot := noProvider;
     ShengSuanYun := noProvider; DeepSeek := deepseek; Cerebras := noProvider;
     VolcEngine := noProvider; GitHubCopilot := noProvider; Antigravity := noProvider;
     Qwen := noProvider |}.

Definition authOnly (method : string) : ProviderConfig :=
  {| APIKey := ""; APIBase := ""; Proxy := ""; AuthMethod := method; ConnectMode := "" |}.

Definition baseOnly (base : string) : ProviderConfig :=
  {| APIKey := ""; APIBase := base; Proxy := ""; AuthMethod := ""; ConnectMode := "" |}.

(** A [model_list] entry for Anthropic with [auth_method] "oauth" and no key. *)
Definition claudeOAuthRoute : ModelConfig :=
  mkRoute "claude" "anthropic/claude-3-sonnet" "" "" "oauth".

(** A [model_list] entry for Anthropic with a key. *)
Definition claudeKeyRoute : ModelConfig :=
  mkRoute "claude" "anthropic/claude-3-sonnet" "ant-key" "" "".

(** Messages and tool definitions as plain text, token usage as a count. *)
Definition textWire : WireTypes :=
  {| Message := string; ToolDefinition := string; UsageInfo := Z |}.

(** The body of a reply without choices. *)
Definition emptyChoicesBody : string := "{choices:[]}".

(** A backend that is down at "https://down.example/v1" and answers every
    other request with 200 and no choices; the decoder knows that one body. *)
Definition cannedWire : @Wire textWire :=
  {| json_Marshal := fun _ => Ok "{}";
     http_NewRequest := fun method url body =>
       Ok {| Method := method; URL := url; Header := ∅; RequestBody := body |};
     http_Do := fun _ req =>
       if (URL req =? "https://down.example/v1/chat/completions")%string
       then Ok {| StatusCode := 503; ResponseBody := Ok "upstream unavailable" |}
       else Ok {| StatusCode := 200; ResponseBody := Ok emptyChoicesBody |};
     json_Unmarshal_response := fun body =>
       if (body =? emptyChoicesBody)%string
       then Ok (@Build_apiResponse textWire [] None)
       else Err "unexpected end of JSON input";
     json_Unmarshal_arguments := fun _ => (∅, Some "invalid character") |}.

(** A network on which the token exchange fails and the model listing works. *)
Definition offlineAuth : AuthNetwork :=
  {| OAuthProviderConfig := unit;
     GoogleAntigravityOAuthConfig := tt;
     RefreshAccessToken := fun _ _ => Err "token endpoint unreachable";
     FetchAntigravityModels := fun _ _ =>
       Ok [ {| ID := "gemini-3-flash"; DisplayName := ""; IsExhausted := false |} ] |}.

(** A stored credential that expires at [1000] and has a refresh token. *)
Definition staleCredential : AuthCredential :=
  {| AccessToken := "old-access"; RefreshToken := "refresh-1"; AccountID := "";
     ExpiresAt := 1000; cred_Provider := "google-antigravity"; cred_AuthMethod := "oauth";
     Email := "user@example.com"; ProjectID := "project-1" |}.

(** A [model_list] entry for Groq with neither key nor base. *)
Definition bareGroqRoute : ModelConfig :=
  mkRoute "fast" "groq/llama-3.1-70b-versatile" "" "" "".

(** How one tool call of the reply relates to the tool call of the result. *)
Definition normalizes (w : wireToolCall) (tc : ToolCall) : Prop :=
  tc_ID tc = wt_ID w /\
  tc_Type tc = wt_Type w /\
  exists f,
    tc_Function tc = Some f /\
    tc_Name tc = fc_Name f /\
    match wt_Function w with
    | Some wf =>
        fc_Name f = wf_Name wf /\ fc_Arguments f = wf_Arguments wf /\
        fc_ThoughtSignature f = wf_ThoughtSignature wf
    | None =>
        fc_Name f = "" /\ fc_Arguments f = "" /\ fc_ThoughtSignature f = "" /\
        tc_Arguments tc = ∅
    end.

(** [n] slashes. *)
Fixpoint slashes (n : nat) : string :=
  match n with
  | O => ""
  | S n' => String "/" (slashes n')
  end.

(** A reply whose first choice has two tool calls, one with arguments that are
    cut short and one without a function, and a second choice. *)
Definition toolCallReply : @apiResponse textWire :=
  @Build_apiResponse textWire
    [ {| wc_Message :=
           {| wm_Content := "";
              wm_ToolCalls :=
                [ {| wt_ID := "call_1"; wt_Type := "function";
                     wt_Function := Some {| wf_Name := "read_file"; wf_Arguments := "{path:";
                                            wf_ThoughtSignature := "" |} |};
                  {| wt_ID := "call_2"; wt_Type := "function"; wt_Function := None |} ] |};
         wc_FinishReason := "tool_calls" |};
      {| wc_Message := {| wm_Content := "ignored"; wm_ToolCalls := [] |};
         wc_FinishReason := "stop" |} ]
    (Some 42).

(** A decoder that knows the body "tool-call-reply" and rejects every argument
    string. *)
Definition toolCallWire : @Wire textWire :=
  {| json_Marshal := fun _ => Ok "{}";
     http_NewRequest := fun method url body =>
       Ok {| Method := method; URL := url; Header := ∅; RequestBody := body |};
     http_Do := fun _ _ => Ok {| StatusCode := 200; ResponseBody := Ok "tool-call-reply" |};
     json_Unmarshal_response := fun body =>
       if (body =? "tool-call-reply")%string then Ok toolCallReply
       else Err "unexpected end of JSON input";
     json_Unmarshal_arguments := fun _ => (∅, Some "unexpected end of JSON input") |}.

(** A Groq account with a key and a proxy, and nothing else. *)
Definition groqBehindProxy : ProvidersConfig :=
  providersWith noProvider
    {| APIKey := "gsk-1"; APIBase := ""; Proxy := "http://proxy:8080"; AuthMethod := "";
       ConnectMode := "" |}
    noProvider noProvider.

(** The labels of the [switch providerName] of [CreateProvider], in its order. *)
Definition knownProviderNames : list string :=
  ["groq"; "openai"; "gpt"; "anthropic"; "claude"; "openrouter"; "zhipu"; "glm";
   "gemini"; "google"; "vllm"; "shengsuanyun"; "claude-cli"; "claudecode"; "claude-code";
   "codex-cli"; "codex-code"; "cerebras"; "deepseek"; "qwen"; "github_copilot"; "copilot";
   "antigravity"; "google-antigravity"; "volcengine"; "doubao"].

(** The labels whose case returns an adapter without looking at any key. *)
Definition keylessProviderNames : list string :=
  ["claude-cli"; "claudecode"; "claude-code"; "codex-cli"; "codex-code";
   "github_copilot"; "copilot"; "antigravity"; "google-antigravity"].

(** [cfg] with [cfg.Agents.Defaults.Provider] set to [name]. *)
Definition withProvider (name : string) (cfg : Config) : Config :=
  {| Agents := {| Defaults := {| Workspace := Workspace (Defaults (Agents cfg));
                                 Provider := name;
                                 Model := Model (Defaults (Agents cfg)) |} |};
     Providers := Providers cfg;
     ModelList := ModelList cfg |}.

(** [DefaultConfig()], as far as [Config] goes: the workspace, no provider, the
    model "glm-4.7", every provider entry empty and no [model_list]. *)
Definition DefaultConfig : Config :=
  {| Agents := {| Defaults := {| Workspace := "~/.picoclaw/workspace"; Provider := "";
                                 Model := "glm-4.7" |} |};
     Providers := noProviders;
     ModelList := [] |}.

(** ** Commands [picoclaw auth login] and [picoclaw auth logout] *)

(** Modelled from the spec: [auth.DeleteCredential], the Credential Store's
    [delete(family)]. *)
Definition DeleteCredential (st : Store) (provider : string) : Store * option error :=
  match st with
  | Unreadable e => (st, Some e)
  | Stored creds => (Stored (delete provider creds), None)
  end.

(** Modelled from the spec: [auth.DeleteAllCredentials], the Credential Store's
    [deleteAll()]. *)
Definition DeleteAllCredentials (st : Store) : Store * option error :=
  match st with
  | Unreadable e => (st, Some e)
  | Stored _ => (Stored ∅, None)
  end.

(** The login flows of package [auth], the two lookups that
    [authLoginGoogleAntigravity] makes over the network, and the configuration
    file. *)
Class AuthFlows `{AuthNetwork} := {
  (** [auth.OpenAIOAuthConfig()] *)
  OpenAIOAuthConfig : OAuthProviderConfig;
  (** [auth.LoginBrowser(cfg)] *)
  LoginBrowser : OAuthProviderConfig -> result AuthCredential;
  (** [auth.LoginDeviceCode(cfg)] *)
  LoginDeviceCode : OAuthProviderConfig -> result AuthCredential;
  (** [auth.LoginPasteToken(provider, os.Stdin)] *)
  LoginPasteToken : string -> result AuthCredential;
  (** [providers.FetchAntigravityProjectID(accessToken)] *)
  FetchAntigravityProjectID : string -> result string;
  (** [client.Do(req)] of [fetchGoogleUserEmail]: the status and the bytes that
      [io.ReadAll] returns, whose error the function drops *)
  userinfo_Do : Request -> result (Z * string);
  (** [json.Unmarshal(body, &userInfo)]: the field [Email] afterwards *)
  json_Unmarshal_userInfo : string -> result string;
  (** [config.SaveConfig(getConfigPath(), cfg)] *)
  SaveConfig : Config -> option error
}.

(** What a command has done when it returns or exits: the text it printed
    itself, the exit status ([1] after [os.Exit(1)]), the credential file and
    the configuration it handed to [SaveConfig], if any. *)
Record CommandResult := {
  stdout : string;
  exitStatus : Z;
  storeAfter : Store;
  savedConfig : option Config
}.

(** [c] with its [AuthMethod] set. *)
Definition setAuthMethod (method : string) (c : ProviderConfig) : ProviderConfig :=
  {| APIKey := APIKey c; APIBase := APIBase c; Proxy := Proxy c; AuthMethod := method;
     ConnectMode := ConnectMode c |}.

Definition withProviders (ps : ProvidersConfig) (cfg : Config) : Config :=
  {| Agents := Agents cfg; Providers := ps; ModelList := ModelList cfg |}.

(** [appCfg.Providers.OpenAI.AuthMethod = method] *)
Definition setOpenAIAuth (method : string) (cfg : Config) : Config :=
  let p := Providers cfg in
  withProviders
    {| Anthropic := Anthropic p; OpenAI := setAuthMethod method (OpenAI p);
       OpenRouter := OpenRouter p; Groq := Groq p; Zhipu := Zhipu p; VLLM := VLLM p;
       Gemini := Gemini p; Nvidia := Nvidia p; Ollama := Ollama p; Moonshot := Moonshot p;
       ShengSuanYun := ShengSuanYun p; DeepSeek := DeepSeek p; Cerebras := Cerebras p;
       VolcEngine := VolcEngine p; GitHubCopilot := GitHubCopilot p;
       Antigravity := Antigravity p; Qwen := Qwen p |} cfg.

(** [appCfg.Providers.Anthropic.AuthMethod = method] *)
Definition setAnthropicAuth (method : string) (cfg : Config) : Config :=
  let p := Providers cfg in
  withProviders
    {| Anthropic := setAuthMethod method (Anthropic p); OpenAI := OpenAI p;
       OpenRouter := OpenRouter p; Groq := Groq p; Zhipu := Zhipu p; VLLM := VLLM p;
       Gemini := Gemini p; Nvidia := Nvidia p; Ollama := Ollama p; Moonshot := Moonshot p;
       ShengSuanYun := ShengSuanYun p; DeepSeek := DeepSeek p; Cerebras := Cerebras p;
       VolcEngine := VolcEngine p; GitHubCopilot := GitHubCopilot p;
       Antigravity := Antigravity p; Qwen := Qwen p |} cfg.

(** [appCfg.Providers.Antigravity.AuthMethod = method] *)
Definition setAntigravityAuth (method : string) (cfg : Config) : Config :=
  let p := Providers cfg in
  withProviders
    {| Anthropic := Anthropic p; OpenAI := OpenAI p;
       OpenRouter := OpenRouter p; Groq := Groq p; Zhipu := Zhipu p; VLLM := VLLM p;
       Gemini := Gemini p; Nvidia := Nvidia p; Ollama := Ollama p; Moonshot := Moonshot p;
       ShengSuanYun := ShengSuanYun p; DeepSeek := DeepSeek p; Cerebras := Cerebras p;
       VolcEngine := VolcEngine p; GitHubCopilot := GitHubCopilot p;
       Antigravity := setAuthMethod method (Antigravity p); Qwen := Qwen p |} cfg.

(** [appCfg.Agents.Defaults.Model = model] *)
Definition withModel (model : string) (cfg : Config) : Config :=
  {| Agents := {| Defaults := {| Workspace := Workspace (Defaults (Agents cfg));
                                 Provider := Provider (Defaults (Agents cfg));
                                 Model := model |} |};
     Providers := Providers cfg;
     ModelList := ModelList cfg |}.

(** The loop of [authLogoutCmd] over [os.Args[3:]]: the value after
    "--provider" or "-p" is taken and skipped; a flag in last position has no
    value and is passed over. *)
Fixpoint parseLogoutArgs (provider : string) (args : list string) : string :=
  match args with
  | [] => provider
  | arg :: rest =>
      if oneOf arg ["--provider"; "-p"] then
        match rest with
        | value :: rest' => parseLogoutArgs value rest'
        | [] => provider
        end
      else parseLogoutArgs provider rest
  end.

(** The loop of [authLoginCmd], which also knows "--device-code". *)
Fixpoint parseLoginArgs (provider : string) (useDeviceCode : bool) (args : list string)
  : string * bool :=
  match args with
  | [] => (provider, useDeviceCode)
  | arg :: rest =>
      if oneOf arg ["--provider"; "-p"] then
        match rest with
        | value :: rest' => parseLoginArgs value useDeviceCode rest'
        | [] => (provider, useDeviceCode)
        end
      else if oneOf arg ["--device-code"] then parseLoginArgs provider true rest
      else parseLoginArgs provider useDeviceCode rest
  end.

(** [authLogoutCmd] on the arguments after "logout"; [loaded] is what
    [loadConfig()] returns.  The result of [SaveConfig] is not looked at. *)
Definition authLogoutCmd (args : list string) (st : Store) (loaded : result Config)
  : CommandResult :=
  let provider := parseLogoutArgs "" args in
  if nonEmpty provider then
    match DeleteCredential st provider with
    | (st', Some err) =>
        {| stdout := "Failed to remove credentials: " ++ err ++ LF; exitStatus := 1;
           storeAfter := st'; savedConfig := None |}
    | (st', None) =>
        let saved :=
          match loaded with
          | Ok appCfg =>
              Some (if oneOf provider ["openai"] then setOpenAIAuth "" appCfg
                    else if oneOf provider ["anthropic"] then setAnthropicAuth "" appCfg
                    else if oneOf provider ["google-antigravity"; "antigravity"]
                    then setAntigravityAuth "" appCfg
                    else appCfg)
          | Err _ => None
          end in
        {| stdout := "Logged out from " ++ provider ++ LF; exitStatus := 0;
           storeAfter := st'; savedConfig := saved |}
    end
  else
    match DeleteAllCredentials st with
    | (st', Some err) =>
        {| stdout := "Failed to remove credentials: " ++ err ++ LF; exitStatus := 1;
           storeAfter := st'; savedConfig := None |}
    | (st', None) =>
        let saved :=
          match loaded with
          | Ok appCfg =>
              Some (setAntigravityAuth "" (setAnthropicAuth "" (setOpenAIAuth "" appCfg)))
          | Err _ => None
          end in
        {| stdout := Println "Logged out from all providers"; exitStatus := 0;
           storeAfter := st'; savedConfig := saved |}
    end.

(** The tail shared by the login commands: [SaveConfig] and its warning. *)
Definition saveWithWarning `{AuthFlows} (appCfg : Config) : string :=
  match SaveConfig appCfg with
  | Some err => "Warning: could not update config: " ++ err ++ LF
  | None => ""
  end.

(** [authLoginPasteToken(provider)] *)
Definition authLoginPasteToken `{AuthFlows} (provider : string) (st : Store)
    (loaded : result Config) : CommandResult :=
  match LoginPasteToken provider with
  | Err err =>
      {| stdout := "Login failed: " ++ err ++ LF; exitStatus := 1; storeAfter := st;
         savedConfig := None |}
  | Ok cred =>
      match SetCredential st provider cred with
      | (st', Some err) =>
          {| stdout := "Failed to save credentials: " ++ err ++ LF; exitStatus := 1;
             storeAfter := st'; savedConfig := None |}
      | (st', None) =>
          let '(out, saved) :=
            match loaded with
            | Ok appCfg =>
                let appCfg :=
                  if oneOf provider ["anthropic"] then setAnthropicAuth "token" appCfg
                  else if oneOf provider ["openai"] then setOpenAIAuth "token" appCfg
                  else appCfg in
                (saveWithWarning appCfg, Some appCfg)
            | Err _ => ("", None)
            end in
          {| stdout := out ++ "Token saved for " ++ provider ++ "!" ++ LF; exitStatus := 0;
             storeAfter := st'; savedConfig := saved |}
      end
  end.

(** [authLoginOpenAI(useDeviceCode)] *)
Definition authLoginOpenAI `{AuthFlows} (useDeviceCode : bool) (st : Store)
    (loaded : result Config) : CommandResult :=
  let cfg := OpenAIOAuthConfig in
  match (if useDeviceCode then LoginDeviceCode cfg else LoginBrowser cfg) with
  | Err err =>
      {| stdout := "Login failed: " ++ err ++ LF; exitStatus := 1; storeAfter := st;
         savedConfig := None |}
  | Ok cred =>
      match SetCredential st "openai" cred with
      | (st', Some err) =>
          {| stdout := "Failed to save credentials: " ++ err ++ LF; exitStatus := 1;
             storeAfter := st'; savedConfig := None |}
      | (st', None) =>
          let '(out, saved) :=
            match loaded with
            | Ok appCfg =>
                let appCfg := setOpenAIAuth "oauth" appCfg in
                (saveWithWarning appCfg, Some appCfg)
            | Err _ => ("", None)
            end in
          let out := out ++ Println "Login successful!" in
          let out :=
            if nonEmpty (AccountID cred) then out ++ "Account: " ++ AccountID cred ++ LF
            else out in
          {| stdout := out; exitStatus := 0; storeAfter := st'; savedConfig := saved |}
      end
  end.

(** [fetchGoogleUserEmail(accessToken)].  Creating the request cannot fail for
    the constant method and URL. *)
Definition fetchGoogleUserEmail `{AuthFlows} (accessToken : string) : result string :=
  let req := {| Method := "GET"; URL := "https://www.googleapis.com/oauth2/v2/userinfo";
                Header := ∅; RequestBody := "" |} in
  let req := Header_Set req "Authorization" ("Bearer " ++ accessToken) in
  match userinfo_Do req with
  | Err err => Err err
  | Ok (status, body) =>
      if negb (status =? 200) then Err ("userinfo request failed: " ++ body)
      else
        match json_Unmarshal_userInfo body with
        | Err err => Err err
        | Ok email => Ok email
        end
  end.

(** The double quote. *)
Definition DQ : string := String (byte 34) "".

(** [authLoginGoogleAntigravity()] *)
Definition authLoginGoogleAntigravity `{AuthFlows} (st : Store) (loaded : result Config)
  : CommandResult :=
  let cfg := GoogleAntigravityOAuthConfig in
  match LoginBrowser cfg with
  | Err err =>
      {| stdout := "Login failed: " ++ err ++ LF; exitStatus := 1; storeAfter := st;
         savedConfig := None |}
  | Ok cred =>
      let cred :=
        {| AccessToken := AccessToken cred; RefreshToken := RefreshToken cred;
           AccountID := AccountID cred; ExpiresAt := ExpiresAt cred;
           cred_Provider := "google-antigravity"; cred_AuthMethod := cred_AuthMethod cred;
           Email := Email cred; ProjectID := ProjectID cred |} in
      let '(out, cred) :=
        match fetchGoogleUserEmail (AccessToken cred) with
        | Err err => ("Warning: could not fetch email: " ++ err ++ LF, cred)
        | Ok email =>
            ("Email: " ++ email ++ LF,
             {| AccessToken := AccessToken cred; RefreshToken := RefreshToken cred;
                AccountID := AccountID cred; ExpiresAt := ExpiresAt cred;
                cred_Provider := cred_Provider cred; cred_AuthMethod := cred_AuthMethod cred;
                Email := email; ProjectID := ProjectID cred |})
        end in
      let '(out, cred) :=
        match FetchAntigravityProjectID (AccessToken cred) with
        | Err err =>
            (out ++ "Warning: could not fetch project ID: " ++ err ++ LF
                 ++ Println "You may need Google Cloud Code Assist enabled on your account.",
             cred)
        | Ok projectID =>
            (out ++ "Project: " ++ projectID ++ LF,
             {| AccessToken := AccessToken cred; RefreshToken := RefreshToken cred;
                AccountID := AccountID cred; ExpiresAt := ExpiresAt cred;
                cred_Provider := cred_Provider cred; cred_AuthMethod := cred_AuthMethod cred;
                Email := Email cred; ProjectID := projectID |})
        end in
      match SetCredential st "google-antigravity" cred with
      | (st', Some err) =>
          {| stdout := out ++ "Failed to save credentials: " ++ err ++ LF; exitStatus := 1;
             storeAfter := st'; savedConfig := None |}
      | (st', None) =>
          let '(out, saved) :=
            match loaded with
            | Ok appCfg =>
                let appCfg := setAntigravityAuth "oauth" appCfg in
                let appCfg :=
                  if (Provider (Defaults (Agents appCfg)) =? "")%string
                  then withProvider "antigravity" appCfg else appCfg in
                let appCfg :=
                  if (Provider (Defaults (Agents appCfg)) =? "antigravity")%string
                     || (Provider (Defaults (Agents appCfg)) =? "google-antigravity")%string
                  then withModel "gemini-3-flash" appCfg else appCfg in
                (out ++ saveWithWarning appCfg, Some appCfg)
            | Err _ => (out, None)
            end in
          {| stdout :=
               out ++ Println (LF ++ checkMark ++ " Google Antigravity login successful!")
                   ++ Println "Config updated: provider=antigravity, model=gemini-3-flash"
                   ++ Println ("Try it: picoclaw agent -m " ++ DQ ++ "Hello world" ++ DQ);
             exitStatus := 0; storeAfter := st'; savedConfig := saved |}
      end
  end.

(** [authLoginCmd] on the arguments after "login". *)
Definition authLoginCmd `{AuthFlows} (args : list string) (st : Store)
    (loaded : result Config) : CommandResult :=
  let '(provider, useDeviceCode) := parseLoginArgs "" false args in
  if (provider =? "")%string then
    {| stdout := Println "Error: --provider is required"
                 ++ Println "Supported providers: openai, anthropic, google-antigravity";
       exitStatus := 0; storeAfter := st; savedConfig := None |}
  else if oneOf provider ["openai"] then authLoginOpenAI useDeviceCode st loaded
  else if oneOf provider ["anthropic"] then authLoginPasteToken provider st loaded
  else if oneOf provider ["google-antigravity"; "antigravity"]
  then authLoginGoogleAntigravity st loaded
  else
    {| stdout := "Unsupported provider: " ++ provider ++ LF
                 ++ Println "Supported providers: openai, anthropic, google-antigravity";
       exitStatus := 0; storeAfter := st; savedConfig := None |}.

(** Login flows that hand out fixed credentials; the identity and project
    lookups fail and the configuration file can be written. *)
Definition cannedFlows : @AuthFlows offlineAuth :=
  @Build_AuthFlows offlineAuth
    tt
    (fun _ =>
       Ok {| AccessToken := "browser-token"; RefreshToken := "refresh-9"; AccountID := "acct-7";
             ExpiresAt := 0; cred_Provider := "openai"; cred_AuthMethod := "oauth";
             Email := ""; ProjectID := "" |})
    (fun _ => Err "device flow not available")
    (fun provider =>
       Ok {| AccessToken := "sk-ant-pasted"; RefreshToken := ""; AccountID := "";
             ExpiresAt := 0; cred_Provider := provider; cred_AuthMethod := "token";
             Email := ""; ProjectID := "" |})
    (fun _ => Err "forbidden")
    (fun _ => Ok (401, "unauthorized"))
    (fun _ => Err "unexpected end of JSON input")
    (fun _ => None).

(** The credential that the token exchange of [onlineAuth] hands out. *)
Definition refreshedCredential : AuthCredential :=
  {| AccessToken := "new-access"; RefreshToken := "refresh-1"; AccountID := "";
     ExpiresAt := 5000000000000; cred_Provider := "google-antigravity";
     cred_AuthMethod := "oauth"; Email := "user@example.com"; ProjectID := "project-1" |}.

(** A network on which the token exchange works and no model is on offer. *)
Definition onlineAuth : AuthNetwork :=
  {| OAuthProviderConfig := unit;
     GoogleAntigravityOAuthConfig := tt;
     RefreshAccessToken := fun _ _ => Ok refreshedCredential;
     FetchAntigravityModels := fun _ _ => Ok [] |}.

(** ** Package [config]: migration of the legacy [providers] section *)

(** [if cond { result = append(result, entry) }] *)
Definition appendIf (cond : bool) (entry : ModelConfig) (result : list ModelConfig)
  : list ModelConfig :=
  if cond then result ++ [entry] else result.

(** The entry that [ConvertProvidersToModelList] makes of a provider with key,
    base and proxy. *)
Definition keyedEntry (name model : string) (c : ProviderConfig) : ModelConfig :=
  {| mc_ModelName := name; mc_Model := model; mc_APIKey := APIKey c;
     mc_APIBase := APIBase c; mc_Proxy := Proxy c; mc_AuthMethod := "";
     mc_ConnectMode := "" |}.

(** The same with the [AuthMethod] carried over (OpenAI and Anthropic). *)
Definition authEntry (name model : string) (c : ProviderConfig) : ModelConfig :=
  {| mc_ModelName := name; mc_Model := model; mc_APIKey := APIKey c;
     mc_APIBase := APIBase c; mc_Proxy := Proxy c; mc_AuthMethod := AuthMethod c;
     mc_ConnectMode := "" |}.

Definition hasKeyOrBase (c : ProviderConfig) : bool :=
  nonEmpty (APIKey c) || nonEmpty (APIBase c).

(** [ConvertProvidersToModelList]; a [nil] configuration gives the [nil] slice,
    which like the empty slice is the empty list. *)
Definition ConvertProvidersToModelList (cfg : option Config) : list ModelConfig :=
  match cfg with
  | None => []
  | Some cfg =>
      let p := Providers cfg in
      let result := [] in
      let result :=
        appendIf (hasKeyOrBase (OpenAI p)) (authEntry "openai" "openai/gpt-4o" (OpenAI p))
          result in
      let result :=
        appendIf (hasKeyOrBase (Anthropic p))
          (authEntry "anthropic" "anthropic/claude-3-sonnet" (Anthropic p)) result in
      let result :=
        appendIf (hasKeyOrBase (OpenRouter p))
          (keyedEntry "openrouter" "openrouter/auto" (OpenRouter p)) result in
      let result :=
        appendIf (hasKeyOrBase (Groq p))
          (keyedEntry "groq" "groq/llama-3.1-70b-versatile" (Groq p)) result in
      let result :=
        appendIf (hasKeyOrBase (Zhipu p)) (keyedEntry "zhipu" "openai/glm-4" (Zhipu p))
          result in
      let result :=
        appendIf (hasKeyOrBase (VLLM p)) (keyedEntry "vllm" "openai/auto" (VLLM p)) result in
      let result :=
        appendIf (hasKeyOrBase (Gemini p)) (keyedEntry "gemini" "openai/gemini-pro" (Gemini p))
          result in
      let result :=
        appendIf (hasKeyOrBase (Nvidia p))
          (keyedEntry "nvidia" "nvidia/meta/llama-3.1-8b-instruct" (Nvidia p)) result in
      let result :=
        appendIf (hasKeyOrBase (Ollama p)) (keyedEntry "ollama" "ollama/llama3" (Ollama p))
          result in
      let result :=
        appendIf (hasKeyOrBase (Moonshot p))
          (keyedEntry "moonshot" "moonshot/kimi" (Moonshot p)) result in
      let result :=
        appendIf (hasKeyOrBase (ShengSuanYun p))
          (keyedEntry "shengsuanyun" "openai/auto" (ShengSuanYun p)) result in
      let result :=
        appendIf (hasKeyOrBase (DeepSeek p))
          (keyedEntry "deepseek" "openai/deepseek-chat" (DeepSeek p)) result in
      let result :=
        appendIf (hasKeyOrBase (Cerebras p))
          (keyedEntry "cerebras" "cerebras/llama-3.3-70b" (Cerebras p)) result in
      let result :=
        appendIf (hasKeyOrBase (VolcEngine p))
          (keyedEntry "volcengine" "openai/doubao-pro" (VolcEngine p)) result in
      let result :=
        appendIf (nonEmpty (APIKey (GitHubCopilot p)) || nonEmpty (APIBase (GitHubCopilot p))
                  || nonEmpty (ConnectMode (GitHubCopilot p)))
          {| mc_ModelName := "github-copilot"; mc_Model := "github-copilot/gpt-4o";
             mc_APIKey := ""; mc_APIBase := APIBase (GitHubCopilot p); mc_Proxy := "";
             mc_AuthMethod := ""; mc_ConnectMode := ConnectMode (GitHubCopilot p) |}
          result in
      let result :=
        appendIf (nonEmpty (APIKey (Antigravity p)) || nonEmpty (AuthMethod (Antigravity p)))
          {| mc_ModelName := "antigravity"; mc_Model := "antigravity/gemini-2.0-flash";
             mc_APIKey := APIKey (Antigravity p); mc_APIBase := ""; mc_Proxy := "";
             mc_AuthMethod := AuthMethod (Antigravity p); mc_ConnectMode := "" |}
          result in
      let result :=
        appendIf (hasKeyOrBase (Qwen p)) (keyedEntry "qwen" "qwen/qwen-max" (Qwen p)) result in
      result
  end.

(** The logical names [ConvertProvidersToModelList] gives, in its order. *)
Definition migratedNames : list string :=
  ["openai"; "anthropic"; "openrouter"; "groq"; "zhipu"; "vllm"; "gemini"; "nvidia";
   "ollama"; "moonshot"; "shengsuanyun"; "deepseek"; "cerebras"; "volcengine";
   "github-copilot"; "antigravity"; "qwen"].

(** The configurations of the tests in [migration_test.go]. *)
Definition allProvidersConfig : Config :=
  mkConfig "" ""
    {| Anthropic := keyOnly "key2"; OpenAI := keyOnly "key1"; OpenRouter := keyOnly "key3";
       Groq := keyOnly "key4"; Zhipu := keyOnly "key5"; VLLM := keyOnly "key6";
       Gemini := keyOnly "key7"; Nvidia := keyOnly "key8"; Ollama := keyOnly "key9";
       Moonshot := keyOnly "key10"; ShengSuanYun := keyOnly "key11";
       DeepSeek := keyOnly "key12"; Cerebras := keyOnly "key13";
       VolcEngine := keyOnly "key14";
       GitHubCopilot := {| APIKey := ""; APIBase := ""; Proxy := ""; AuthMethod := "";
                           ConnectMode := "grpc" |};
       Antigravity := authOnly "oauth"; Qwen := keyOnly "key17" |} [].

(** * Properties *)

(** ** Strings: bytes, slices and trimming *)

Lemma append_nil_l (t : string) : "" ++ t = t.
Proof. reflexivity. Qed.

Lemma append_cons (c : ascii) (s t : string) : String c s ++ t = String c (s ++ t).
Proof. reflexivity. Qed.

Lemma append_empty_r (s : string) : s ++ "" = s.
Proof. induction s as [|c s IH]; [reflexivity | now rewrite append_cons, IH]. Qed.

Lemma append_assoc (a b c : string) : (a ++ b) ++ c = a ++ (b ++ c).
Proof. induction a as [|x a IH]; [reflexivity | now rewrite !append_cons, IH]. Qed.

Lemma length_append (a b : string) :
  String.length (a ++ b) = (String.length a + String.length b)%nat.
Proof. induction a as [|x a IH]; [reflexivity | rewrite append_cons; simpl; now rewrite IH]. Qed.

Lemma hasByte_append (c : ascii) (a b : string) :
  hasByte c (a ++ b) = hasByte c a || hasByte c b.
Proof.
  induction a as [|x a IH]; [reflexivity|].
  rewrite append_cons. simpl. rewrite IH. now rewrite orb_assoc.
Qed.

Lemma hasByte_rev (c : ascii) (s : string) : hasByte c (rev_string s) = hasByte c s.
Proof.
  induction s as [|x s IH]; simpl; [reflexivity|].
  rewrite hasByte_append, IH. simpl. now destruct (x =? c)%char, (hasByte c s).
Qed.

Lemma substring_all (s : string) : substring 0 (String.length s) s = s.
Proof. induction s as [|c s IH]; simpl; [reflexivity | now rewrite IH]. Qed.

Lemma substring_prefix (p r : string) : substring 0 (String.length p) (p ++ r) = p.
Proof.
  induction p as [|c p IH].
  - rewrite append_nil_l. now destruct r.
  - rewrite append_cons. simpl. now rewrite IH.
Qed.

Lemma substring_skip (p r : string) (n : nat) :
  substring (String.length p) n (p ++ r) = substring 0 n r.
Proof. induction p as [|c p IH]; [reflexivity | rewrite append_cons; exact IH]. Qed.

Lemma slice_to_append (p r : string) : slice_to (p ++ r) (len p) = p.
Proof.
  unfold slice_to, slice, len. rewrite Z.sub_0_r, Nat2Z.id. simpl Z.to_nat.
  apply substring_prefix.
Qed.

Lemma slice_from_append (p : string) (c : ascii) (m : string) :
  slice_from (p ++ String c m) (len p + 1) = m.
Proof.
  unfold slice_from, slice, len.
  replace (p ++ String c m) with ((p ++ String c "") ++ m)
    by (rewrite append_assoc; reflexivity).
  rewrite length_append.
  replace (Z.of_nat (String.length p) + 1) with (Z.of_nat (String.length (p ++ String c "")))
    by (rewrite length_append; simpl; lia).
  rewrite Nat2Z.id.
  replace (Z.to_nat _) with (String.length m) by lia.
  rewrite substring_skip. apply substring_all.
Qed.

(** The loop of [ExtractProtocol] stops at the first ['/']: before it lies a
    slash-free prefix [p], and the index returned is the length of [p]. *)
Lemma firstSlash_Some (rest : string) : forall i0 i,
  firstSlash i0 rest = Some i ->
  exists p m, rest = p ++ String "/" m /\ hasByte "/" p = false /\ i = i0 + len p.
Proof.
  induction rest as [|c rest IH]; intros i0 i H; simpl in H; [discriminate|].
  destruct (Ascii.eqb_spec c "/") as [->|Hne].
  - injection H as <-. exists "", rest. repeat split. unfold len; simpl; lia.
  - destruct (IH _ _ H) as (p & m & -> & Hp & ->).
    exists (String c p), m. repeat split.
    + simpl. rewrite Hp, orb_false_r. now apply Ascii.eqb_neq.
    + unfold len; simpl String.length. lia.
Qed.

Lemma firstSlash_None (rest : string) (i0 : Z) :
  firstSlash i0 rest = None <-> hasByte "/" rest = false.
Proof.
  revert i0. induction rest as [|c rest IH]; intros i0; simpl; [tauto|].
  destruct (c =? "/")%char; simpl; [split; discriminate | apply IH].
Qed.

Lemma HasPrefix_byte (c : ascii) (s : string) :
  HasPrefix s (String c "") = match s with String d _ => (c =? d)%char | _ => false end.
Proof. destruct s as [|d s]; [reflexivity | exact (andb_true_r (c =? d)%char)]. Qed.

Lemma indexFrom_byte (c : ascii) (s : string) : forall i,
  0 <= i -> (0 <=? indexFrom i s (String c "")) = hasByte c s.
Proof.
  induction s as [|d s IH]; intros i Hi; [reflexivity|].
  cbn [indexFrom hasByte]. rewrite HasPrefix_byte, (Ascii.eqb_sym d c).
  destruct (c =? d)%char; simpl.
  - now apply Z.leb_le.
  - apply IH. lia.
Qed.

(** [Contains s "/"] tests for the byte ['/']. *)
Lemma Contains_byte (c : ascii) (s : string) : Contains s (String c "") = hasByte c s.
Proof. unfold Contains, Index. now apply indexFrom_byte. Qed.

(** White space never contains the byte ['/'] (47): the ASCII white space is 9
    to 13 and 32, and the bytes of the longer encodings are 128 or more. *)
Lemma asciiSpace_not_slash (c : ascii) : asciiSpace c = true -> (c =? "/")%char = false.
Proof.
  intros H. destruct (Ascii.eqb_spec c "/") as [->|]; [discriminate H | reflexivity].
Qed.

Lemma high_byte_not_slash (c : ascii) : (128 <= N_of_ascii c)%N -> (c =? "/")%char = false.
Proof.
  intros H. destruct (Ascii.eqb_spec c "/") as [->|]; [|reflexivity].
  simpl in H. lia.
Qed.

Lemma isSpace2_high (c0 c1 : ascii) :
  isSpace2 c0 c1 = true -> (128 <= N_of_ascii c0)%N /\ (128 <= N_of_ascii c1)%N.
Proof.
  unfold isSpace2.
  rewrite andb_true_iff, orb_true_iff, !N.eqb_eq. lia.
Qed.

Lemma isSpace3_high (c0 c1 c2 : ascii) :
  isSpace3 c0 c1 c2 = true ->
  (128 <= N_of_ascii c0)%N /\ (128 <= N_of_ascii c1)%N /\ (128 <= N_of_ascii c2)%N.
Proof.
  unfold isSpace3.
  rewrite !orb_true_iff, !andb_true_iff, !orb_true_iff, !andb_true_iff,
    !N.eqb_eq, !N.leb_le.
  lia.
Qed.

Lemma trimLeftSpace_hasSlash (s : string) :
  hasByte "/" (trimLeftSpace s) = hasByte "/" s.
Proof.
  remember (String.length s) as n eqn:Hn. revert s Hn.
  induction n as [n IH] using lt_wf_ind. intros s Hn.
  destruct s as [|c0 s0]; [reflexivity|]. cbn [trimLeftSpace].
  destruct (asciiSpace c0) eqn:E0.
  { rewrite (IH (String.length s0)); [|simpl in Hn; lia|reflexivity].
    simpl. now rewrite (asciiSpace_not_slash _ E0). }
  destruct s0 as [|c1 s1]; [reflexivity|].
  destruct (isSpace2 c0 c1) eqn:E2.
  { rewrite (IH (String.length s1)); [|simpl in Hn; lia|reflexivity].
    destruct (isSpace2_high _ _ E2) as [H0 H1]. simpl.
    now rewrite (high_byte_not_slash _ H0), (high_byte_not_slash _ H1). }
  destruct s1 as [|c2 s2]; [reflexivity|].
  destruct (isSpace3 c0 c1 c2) eqn:E3; [|reflexivity].
  rewrite (IH (String.length s2)); [|simpl in Hn; lia|reflexivity].
  destruct (isSpace3_high _ _ _ E3) as (H0 & H1 & H2). simpl.
  now rewrite (high_byte_not_slash _ H0), (high_byte_not_slash _ H1),
    (high_byte_not_slash _ H2).
Qed.

Lemma trimLeftSpaceRev_hasSlash (r : string) :
  hasByte "/" (trimLeftSpaceRev r) = hasByte "/" r.
Proof.
  remember (String.length r) as n eqn:Hn. revert r Hn.
  induction n as [n IH] using lt_wf_ind. intros r Hn.
  destruct r as [|c0 r0]; [reflexivity|]. cbn [trimLeftSpaceRev].
  destruct (asciiSpace c0) eqn:E0.
  { rewrite (IH (String.length r0)); [|simpl in Hn; lia|reflexivity].
    simpl. now rewrite (asciiSpace_not_slash _ E0). }
  destruct r0 as [|c1 r1]; [reflexivity|].
  destruct (isSpace2 c1 c0) eqn:E2.
  { rewrite (IH (String.length r1)); [|simpl in Hn; lia|reflexivity].
    destruct (isSpace2_high _ _ E2) as [H1 H0]. simpl.
    now rewrite (high_byte_not_slash _ H0), (high_byte_not_slash _ H1). }
  destruct r1 as [|c2 r2]; [reflexivity|].
  destruct (isSpace3 c2 c1 c0) eqn:E3; [|reflexivity].
  rewrite (IH (String.length r2)); [|simpl in Hn; lia|reflexivity].
  destruct (isSpace3_high _ _ _ E3) as (H2 & H1 & H0). simpl.
  now rewrite (high_byte_not_slash _ H0), (high_byte_not_slash _ H1),
    (high_byte_not_slash _ H2).
Qed.

(** Trimming neither removes nor adds a separator. *)
Lemma TrimSpace_hasSlash (s : string) : hasByte "/" (TrimSpace s) = hasByte "/" s.
Proof.
  unfold TrimSpace, trimRightSpace.
  now rewrite hasByte_rev, trimLeftSpaceRev_hasSlash, hasByte_rev, trimLeftSpace_hasSlash.
Qed.

(** ** [ExtractProtocol] *)

(** C7, as the code has it.  [ExtractProtocol] is a total function.  For every
    model string that contains ['/'], the protocol is the part of the
    white-space-trimmed string before its first ['/'] and the model id is the
    rest of the trimmed string; for every model string without ['/'], the
    protocol is "openai" and the model id is the trimmed string. *)
Theorem ExtractProtocol_trimmed (model : string) :
  (Contains model "/" = true ->
   exists protocol modelID,
     TrimSpace model = protocol ++ "/" ++ modelID /\
     Contains protocol "/" = false /\
     ExtractProtocol model = (protocol, modelID)) /\
  (Contains model "/" = false -> ExtractProtocol model = ("openai", TrimSpace model)).
Proof.
  rewrite Contains_byte, <- (TrimSpace_hasSlash model). unfold ExtractProtocol.
  destruct (firstSlash 0 (TrimSpace model)) as [i|] eqn:E; split; intros H.
  - destruct (firstSlash_Some _ _ _ E) as (p & m & Ht & Hp & ->).
    exists p, m. rewrite Contains_byte, Ht. split; [reflexivity|]. split; [exact Hp|].
    now rewrite Z.add_0_l, slice_to_append, slice_from_append.
  - destruct (firstSlash_Some _ _ _ E) as (p & m & Ht & _ & _).
    rewrite Ht, hasByte_append in H. simpl in H. now rewrite orb_true_r in H.
  - apply firstSlash_None in E. congruence.
  - reflexivity.
Qed.

Lemma ExtractProtocol_trimmed_witness :
  (exists protocol modelID,
     TrimSpace " groq/openai/gpt-oss-120b " = protocol ++ "/" ++ modelID /\
     Contains protocol "/" = false /\
     ExtractProtocol " groq/openai/gpt-oss-120b " = (protocol, modelID)) /\
  ExtractProtocol " gpt-4o " = ("openai", TrimSpace " gpt-4o ").
Proof.
  split.
  - apply (ExtractProtocol_trimmed " groq/openai/gpt-oss-120b "). reflexivity.
  - apply (ExtractProtocol_trimmed " gpt-4o "). reflexivity.
Defined.

(** C7, as stated, fails on a string with leading white space: [" a/b"] contains
    the separator and its part before the first separator is [" a"], but the
    protocol returned is ["a"]. *)
Lemma ExtractProtocol_untrimmed_counterexample :
  " a/b" = " a" ++ "/" ++ "b" /\
  Contains " a" "/" = false /\
  ExtractProtocol " a/b" = ("a", "b") /\
  ExtractProtocol " a/b" <> (" a", "b").
Proof. repeat split; [reflexivity..|discriminate]. Qed.

(** ** Resolution from [model_list] *)

Section ModelListResolution.
Context `{GoRuntime} `{ConfigMethods} `{ProviderConstructors}.

Lemma fromModelList_found (cfg : Config) (mc : option ModelConfig) :
  ModelList cfg <> [] ->
  GetModelConfig cfg (requested cfg) = (mc, None) ->
  fromModelList cfg = Some (wrapRouteError (CreateProviderFromConfig mc)).
Proof.
  intros Hne Hget. unfold fromModelList. rewrite Hget.
  destruct (ModelList cfg); [contradiction | reflexivity].
Qed.

Lemma fromModelList_missed (cfg : Config) :
  ModelList cfg = [] \/ snd (GetModelConfig cfg (requested cfg)) <> None ->
  fromModelList cfg = None.
Proof.
  intros [Hnil|Herr]; unfold fromModelList.
  - now rewrite Hnil.
  - destruct (0 <? _); [|reflexivity].
    destruct (GetModelConfig _ _) as [mc [e|]]; [reflexivity | now contradiction Herr].
Qed.

Lemma CreateProvider_found (cfg : Config) (st : Store) (mc : option ModelConfig) :
  ModelList cfg <> [] ->
  GetModelConfig cfg (requested cfg) = (mc, None) ->
  CreateProvider cfg st = wrapRouteError (CreateProviderFromConfig mc).
Proof.
  intros Hne Hget. unfold CreateProvider. now rewrite (fromModelList_found _ _ Hne Hget).
Qed.


(** C3.  An entry of [model_list] whose protocol is one of the HTTP-compatible
    ones and whose [api_key] and [api_base] are both empty makes
    [CreateProviderFromConfig] fail, and [CreateProvider] returns that failure
    for the requested model: no provider, whatever the legacy fields hold. *)
Theorem http_route_without_key_and_base_fails (cfg : Config) (st : Store) (mc : ModelConfig) :
  ModelList cfg <> [] ->
  GetModelConfig cfg (requested cfg) = (Some mc, None) ->
  oneOf (fst (ExtractProtocol (mc_Model mc))) httpProtocols = true ->
  mc_APIKey mc = "" ->
  mc_APIBase mc = "" ->
  exists err,
    CreateProviderFromConfig (Some mc) = (None, "", Some err) /\
    CreateProvider cfg st
    = (None, "", Some ("failed to create provider from model_list: " ++ err)).
Proof.
  intros Hne Hget Hhttp Hkey Hbase.
  rewrite (CreateProvider_found cfg st _ Hne Hget).
  unfold CreateProviderFromConfig.
  destruct (mc_Model mc =? "")%string; [now eexists|].
  destruct (ExtractProtocol (mc_Model mc)) as [protocol modelID]. cbn [fst] in Hhttp.
  rewrite Hhttp, Hkey, Hbase. now eexists.
Qed.

(** The case "anthropic" of [CreateProviderFromConfig] with [auth_method]
    "oauth" or "token": the adapter is built from the entry's [api_key]; the
    function has no access to the credential file and cannot fail here. *)
Lemma anthropic_oauth_route_uses_api_key (mc : ModelConfig) :
  mc_Model mc <> "" ->
  fst (ExtractProtocol (mc_Model mc)) = "anthropic" ->
  isOAuthOrToken (mc_AuthMethod mc) = true ->
  CreateProviderFromConfig (Some mc)
  = (Some (ClaudeProvider (mc_APIKey mc)), snd (ExtractProtocol (mc_Model mc)), None).
Proof.
  intros Hmodel Hproto Hauth. unfold CreateProviderFromConfig.
  apply String.eqb_neq in Hmodel as ->.
  destruct (ExtractProtocol (mc_Model mc)) as [protocol modelID].
  cbn [fst snd] in *. subst protocol.
  unfold isOAuthOrToken in Hauth. cbn. now rewrite Hauth.
Qed.

End ModelListResolution.


Lemma http_route_without_key_and_base_fails_witness :
  let cfg := mkConfig "groq" "fast"
               (providersWith noProvider (keyOnly "groq-key") noProvider noProvider)
               [bareGroqRoute] in
  exists err,
    @CreateProviderFromConfig asciiRuntime noSidecar (Some bareGroqRoute)
    = (None, "", Some err) /\
    @CreateProvider asciiRuntime specConfigMethods noSidecar cfg emptyStore
    = (None, "", Some ("failed to create provider from model_list: " ++ err)).
Proof.
  intros cfg.
  apply (@http_route_without_key_and_base_fails asciiRuntime specConfigMethods noSidecar
           cfg emptyStore bareGroqRoute).
  - discriminate.
  - reflexivity.
  - reflexivity.
  - reflexivity.
  - reflexivity.
Defined.

(** A route for Anthropic wins over a legacy Groq entry; without the route the
    Groq entry is used. *)
Example route_beats_legacy_provider :
  let legacy := providersWith noProvider (keyOnly "groq-key") noProvider noProvider in
  @CreateProvider asciiRuntime specConfigMethods noSidecar
    (mkConfig "groq" "claude" legacy [claudeKeyRoute]) emptyStore
  = (Some (HTTP {| apiKey := "ant-key"; apiBase := "https://api.anthropic.com/v1";
                   httpClient := {| Timeout := 120; TransportProxy := None |} |}),
     "claude-3-sonnet", None) /\
  @CreateProvider asciiRuntime specConfigMethods noSidecar
    (mkConfig "groq" "claude" legacy []) emptyStore
  = (Some (HTTP {| apiKey := "groq-key"; apiBase := "https://api.groq.com/openai/v1";
                   httpClient := {| Timeout := 120; TransportProxy := None |} |}),
     "claude", None).
Proof. split; reflexivity. Qed.

(** C1, on the code.  For the [model_list] entry "anthropic/claude-3-sonnet" with
    [auth_method] "oauth" and an empty credential file, resolution does not
    fail: [CreateProviderFromConfig] builds the Claude adapter from the entry's
    [api_key] (here empty) and never reads the credential file.  The legacy
    path with the same settings does read it and fails with the instruction to
    log in. *)
Theorem anthropic_oauth_route_ignores_store
    (R : GoRuntime) (P : ProviderConstructors) (st : Store) :
  @CreateProviderFromConfig R P (Some claudeOAuthRoute)
  = (Some (ClaudeProvider ""), "claude-3-sonnet", None) /\
  @CreateProvider R specConfigMethods P
    (mkConfig "" "claude" noProviders [claudeOAuthRoute]) st
  = (Some (ClaudeProvider ""), "claude-3-sonnet", None) /\
  @CreateProvider R specConfigMethods P
    (mkConfig "anthropic" "claude-3-sonnet"
       (providersWith (authOnly "oauth") noProvider noProvider noProvider) [])
    emptyStore
  = (None, "claude-3-sonnet",
     Some "no credentials for anthropic. Run: picoclaw auth login --provider anthropic").
Proof. repeat split; reflexivity. Qed.

(** ** Resolution from the legacy [providers] section *)

(** Case analysis on the test at the head of the left-hand side of [H]. *)
Ltac head_case H :=
  match type of H with
  | (if ?c then _ else _) = _ => destruct c eqn:?
  | (let '(_, _) := ?x in _) = _ => destruct x eqn:?
  end.

Section LegacyResolution.
Context `{GoRuntime} `{ConfigMethods} `{ProviderConstructors}.

Lemma CreateProvider_legacy (cfg : Config) (st : Store) :
  routeMiss cfg ->
  CreateProvider cfg st
  = match selectLegacy cfg st with
    | Returned r => r
    | Selected apiKey apiBase proxy model => finish apiKey apiBase proxy model
    end.
Proof. intros Hmiss. unfold CreateProvider. now rewrite fromModelList_missed. Qed.

Lemma orDefault_nonEmpty (base dflt : string) : dflt <> "" -> orDefault base dflt <> "".
Proof.
  intros Hd. unfold orDefault. destruct (String.eqb_spec base ""); congruence.
Qed.

Lemma nonEmpty_true (s : string) : nonEmpty s = true <-> s <> "".
Proof. unfold nonEmpty. rewrite negb_true_iff. apply String.eqb_neq. Qed.

(** The case "deepseek" of the [switch]. *)
Lemma explicitProvider_deepseek (cfg : Config) (st : Store) (model : string) :
  explicitProvider cfg st model "deepseek"
  = let c := DeepSeek (Providers cfg) in
    if nonEmpty (APIKey c) then
      Selected (APIKey c) (orDefault (APIBase c) "https://api.deepseek.com/v1") ""
        (if negb (model =? "deepseek-chat")%string && negb (model =? "deepseek-reasoner")%string
         then "deepseek-chat" else model)
    else Selected "" "" "" model.
Proof. reflexivity. Qed.

(** Where the explicit step goes on, it has kept the model unless it took the
    case "deepseek" with a key. *)
Lemma explicitProvider_Selected (cfg : Config) (st : Store) (model name : string)
    (k b px m : string) :
  explicitProvider cfg st model name = Selected k b px m ->
  m = model /\ px = "" \/
  name = "deepseek" /\ k = APIKey (DeepSeek (Providers cfg)) /\ k <> "" /\ b <> "" /\
  m = "deepseek-chat".
Proof.
  unfold explicitProvider. intros E.
  repeat (head_case E; try discriminate E;
          try (injection E as <- <- <- <-; left; split; reflexivity)).
  assert (name = "deepseek") as ->.
  { unfold oneOf in *. simpl in *.
    repeat match goal with
           | Hc : (_ || false) = true |- _ => rewrite orb_false_r in Hc
           end.
    now apply String.eqb_eq. }
  match goal with Hk : nonEmpty _ = true |- _ => apply nonEmpty_true in Hk end.
  destruct (negb (model =? "deepseek-chat")%string && negb (model =? "deepseek-reasoner")%string);
    injection E as <- <- <- <-; [right | left; split; reflexivity].
  repeat split; [assumption | now apply orDefault_nonEmpty].
Qed.

(** Where the explicit step returns, it returns the requested model. *)
Lemma explicitProvider_Returned (cfg : Config) (st : Store) (model name : string)
    (provider : option LLMProvider) (m : string) (err : option error) :
  explicitProvider cfg st model name = Returned (provider, m, err) -> m = model.
Proof.
  unfold explicitProvider. intros E.
  repeat (head_case E; try discriminate E; try (injection E as <- <- <-; reflexivity)).
Qed.

(** The fallback step keeps the model it was given; when it returns, it returns
    that model or the error of its last case. *)
Lemma detectFromModel_Selected (cfg : Config) (st : Store) (model lower : string)
    (k b px m : string) :
  detectFromModel cfg st model lower = Selected k b px m -> m = model.
Proof.
  unfold detectFromModel, fromEntry. intros E.
  repeat (head_case E; try discriminate E; try (injection E as <- <- <- <-; reflexivity)).
Qed.

Lemma detectFromModel_Returned (cfg : Config) (st : Store) (model lower : string)
    (provider : option LLMProvider) (m : string) (err : option error) :
  detectFromModel cfg st model lower = Returned (provider, m, err) ->
  m = model \/ m = "".
Proof.
  unfold detectFromModel, fromEntry. intros E.
  repeat (head_case E; try discriminate E;
          try (injection E as <- <- <-; (left + right); reflexivity)).
Qed.

Lemma finish_model (k b px model : string)
    (provider : option LLMProvider) (m : string) (err : option error) :
  finish k b px model = (provider, m, err) -> m = model \/ m = "".
Proof.
  unfold finish. intros E.
  repeat (head_case E; try (injection E as <- <- <-; (left + right); reflexivity)).
Qed.

(** C9.  Past the [model_list] block, with provider name "deepseek" (in any
    letter case), a DeepSeek key and a requested model other than
    "deepseek-chat" and "deepseek-reasoner", [CreateProvider] succeeds with an
    HTTP adapter and returns the model id "deepseek-chat" in place of the
    requested one.  It is the only such rewrite: whenever the legacy path
    returns a non-empty model id different from the requested model, the
    provider name is "deepseek", its key is set and the id is
    "deepseek-chat". *)
Theorem deepseek_rewrites_model (cfg : Config) (st : Store) :
  routeMiss cfg ->
  (ToLower (Provider (Defaults (Agents cfg))) = "deepseek" ->
   APIKey (DeepSeek (Providers cfg)) <> "" ->
   requested cfg <> "deepseek-chat" ->
   requested cfg <> "deepseek-reasoner" ->
   CreateProvider cfg st
   = (Some (HTTP (NewHTTPProvider (APIKey (DeepSeek (Providers cfg)))
                    (orDefault (APIBase (DeepSeek (Providers cfg)))
                       "https://api.deepseek.com/v1") "")),
      "deepseek-chat", None)) /\
  (forall provider m err,
     CreateProvider cfg st = (provider, m, err) ->
     m <> requested cfg -> m <> "" ->
     ToLower (Provider (Defaults (Agents cfg))) = "deepseek" /\
     APIKey (DeepSeek (Providers cfg)) <> "" /\
     m = "deepseek-chat").
Proof.
  intros Hmiss. rewrite (CreateProvider_legacy cfg st Hmiss). unfold selectLegacy. split.
  - intros Hname Hkey Hchat Hreasoner.
    rewrite Hname, explicitProvider_deepseek. cbv zeta.
    assert (orDefault (APIBase (DeepSeek (Providers cfg))) "https://api.deepseek.com/v1" <> "")
      as Hbase by now apply orDefault_nonEmpty.
    apply nonEmpty_true in Hkey as Hk. rewrite Hk.
    apply String.eqb_neq in Hchat as ->. apply String.eqb_neq in Hreasoner as ->.
    apply String.eqb_neq in Hkey. apply String.eqb_neq in Hbase.
    unfold finish. cbn [negb andb]. rewrite Hkey. cbn [andb]. rewrite Hkey. cbn [andb].
    now rewrite Hbase.
  - intros provider m err E Hm Hm'.
    destruct (explicitProvider _ _ _ _) as [[[p0 m0] e0]|k b px m0] eqn:Ex.
    + injection E as -> -> ->. apply explicitProvider_Returned in Ex. contradiction.
    + apply explicitProvider_Selected in Ex as [[-> ->]|(Hname & -> & Hk & Hb & ->)].
      * destruct ((k =? "")%string && (b =? "")%string).
        -- destruct (detectFromModel _ _ _ _) as [[[p1 m1] e1]|k1 b1 px1 m1] eqn:Ed.
           ++ injection E as -> -> ->.
              apply detectFromModel_Returned in Ed as [?|?]; contradiction.
           ++ apply detectFromModel_Selected in Ed as ->.
              apply finish_model in E as [?|?]; contradiction.
        -- apply finish_model in E as [?|?]; contradiction.
      * apply String.eqb_neq in Hk as Hk'. rewrite Hk' in E. cbn [andb] in E.
        apply finish_model in E as [->|?]; [|contradiction].
        repeat split; assumption.
Qed.

Lemma selectLegacy_empty_key (cfg : Config) (st : Store) (b px m : string) :
  selectLegacy cfg st = Selected "" b px m -> m = requested cfg.
Proof.
  unfold selectLegacy. intros E.
  destruct (explicitProvider _ _ _ _) as [r|k0 b0 px0 m0] eqn:Ex; [discriminate E|].
  apply explicitProvider_Selected in Ex as [[-> ->]|(_ & _ & Hk & _ & _)].
  - destruct ((k0 =? "")%string && (b0 =? "")%string).
    + now apply detectFromModel_Selected in E.
    + now injection E.
  - apply String.eqb_neq in Hk as Hk'. rewrite Hk' in E. cbn [andb] in E.
    injection E as E _ _ _. congruence.
Qed.

(** C10.  When the two selection steps of the legacy path end with an empty
    [apiKey], the model is still the requested one and [CreateProvider] fails
    with "no API key configured for provider", unless the model starts with
    "bedrock/": then the check is skipped and, a base URL being there, the
    result is the HTTP adapter with the empty key. *)
Theorem empty_key_fails_unless_bedrock (cfg : Config) (st : Store) (b px m : string) :
  routeMiss cfg ->
  selectLegacy cfg st = Selected "" b px m ->
  m = requested cfg /\
  (HasPrefix m "bedrock/" = false ->
   CreateProvider cfg st
   = (None, "", Some ("no API key configured for provider (model: " ++ m ++ ")"))) /\
  (HasPrefix m "bedrock/" = true ->
   b <> "" ->
   CreateProvider cfg st = (Some (HTTP (NewHTTPProvider "" b px)), m, None)).
Proof.
  intros Hmiss Hsel. split; [exact (selectLegacy_empty_key _ _ _ _ _ Hsel)|].
  rewrite (CreateProvider_legacy cfg st Hmiss), Hsel. unfold finish. split.
  - now intros ->.
  - intros -> Hb. apply String.eqb_neq in Hb as ->. reflexivity.
Qed.

(** The adapters built from stored credentials are not HTTP adapters. *)
Lemma createClaudeAuthProvider_not_HTTP (st : Store) (p : HTTPProvider) (err : option error) :
  createClaudeAuthProvider st <> (Some (HTTP p), err).
Proof.
  unfold createClaudeAuthProvider.
  destruct (GetCredential st "anthropic") as [[c|] [e|]]; discriminate.
Qed.

Lemma createCodexAuthProvider_not_HTTP (st : Store) (p : HTTPProvider) (err : option error) :
  createCodexAuthProvider st <> (Some (HTTP p), err).
Proof.
  unfold createCodexAuthProvider.
  destruct (GetCredential st "openai") as [[c|] [e|]]; discriminate.
Qed.

Lemma explicitProvider_Returned_HTTP (cfg : Config) (st : Store) (model name : string)
    (p : HTTPProvider) (m : string) (err : option error) :
  explicitProvider cfg st model name = Returned (Some (HTTP p), m, err) ->
  oneOf name ["github_copilot"; "copilot"] = true.
Proof.
  unfold explicitProvider. intros E.
  repeat (head_case E; try discriminate E);
    try reflexivity;
    injection E as E1 E2 E3; subst;
    match goal with
    | Hc : createClaudeAuthProvider _ = _ |- _ =>
        exfalso; exact (createClaudeAuthProvider_not_HTTP _ _ _ Hc)
    | Hc : createCodexAuthProvider _ = _ |- _ =>
        exfalso; exact (createCodexAuthProvider_not_HTTP _ _ _ Hc)
    end.
Qed.

Lemma detectFromModel_Returned_HTTP (cfg : Config) (st : Store) (model lower : string)
    (p : HTTPProvider) (m : string) (err : option error) :
  detectFromModel cfg st model lower <> Returned (Some (HTTP p), m, err).
Proof.
  unfold detectFromModel, fromEntry. intros E.
  repeat (head_case E; try discriminate E);
    injection E as E1 E2 E3; subst;
    match goal with
    | Hc : createClaudeAuthProvider _ = _ |- _ =>
        exact (createClaudeAuthProvider_not_HTTP _ _ _ Hc)
    | Hc : createCodexAuthProvider _ = _ |- _ =>
        exact (createCodexAuthProvider_not_HTTP _ _ _ Hc)
    end.
Qed.

(** Seen from the result: unless the sidecar constructor was called, an HTTP
    adapter that the legacy path returns with an empty key belongs to a
    requested model that starts with "bedrock/". *)
Lemma legacy_http_adapter_without_key (cfg : Config) (st : Store)
    (p : HTTPProvider) (m : string) :
  routeMiss cfg ->
  oneOf (ToLower (Provider (Defaults (Agents cfg)))) ["github_copilot"; "copilot"] = false ->
  CreateProvider cfg st = (Some (HTTP p), m, None) ->
  apiKey p = "" ->
  HasPrefix (requested cfg) "bedrock/" = true.
Proof.
  intros Hmiss Hcopilot E Hkey. rewrite (CreateProvider_legacy cfg st Hmiss) in E.
  destruct (selectLegacy cfg st) as [r|k b px m0] eqn:Hsel.
  - exfalso. subst r. unfold selectLegacy in Hsel.
    destruct (explicitProvider _ _ _ _) as [r|k b px m0] eqn:Ex.
    + injection Hsel as ->. apply explicitProvider_Returned_HTTP in Ex. congruence.
    + destruct ((k =? "")%string && (b =? "")%string); [|discriminate Hsel].
      exact (detectFromModel_Returned_HTTP _ _ _ _ _ _ _ Hsel).
  - unfold finish in E.
    destruct ((k =? "")%string && negb (HasPrefix m0 "bedrock/")) eqn:Hcheck;
      [discriminate E|].
    destruct (b =? "")%string; [discriminate E|].
    injection E as <- <-. cbn [apiKey NewHTTPProvider] in Hkey. subst k.
    rewrite <- (selectLegacy_empty_key _ _ _ _ _ Hsel).
    cbn in Hcheck. now apply negb_false_iff in Hcheck.
Qed.

End LegacyResolution.

Lemma deepseek_rewrites_model_witness :
  let cfg := mkConfig "DeepSeek" "gpt-4o"
               (providersWith noProvider noProvider noProvider (keyOnly "ds-key")) [] in
  @CreateProvider asciiRuntime specConfigMethods noSidecar cfg emptyStore
  = (Some (HTTP (@NewHTTPProvider asciiRuntime "ds-key" "https://api.deepseek.com/v1" "")),
     "deepseek-chat", None).
Proof.
  intros cfg.
  apply (@deepseek_rewrites_model asciiRuntime specConfigMethods noSidecar cfg emptyStore).
  - left. reflexivity.
  - reflexivity.
  - discriminate.
  - discriminate.
  - discriminate.
Defined.

Lemma empty_key_fails_unless_bedrock_witness :
  let vllm := providersWith noProvider noProvider (baseOnly "http://localhost:8000/v1")
                noProvider in
  @CreateProvider asciiRuntime specConfigMethods noSidecar
    (mkConfig "vllm" "llama-3" vllm []) emptyStore
  = (None, "", Some "no API key configured for provider (model: llama-3)") /\
  @CreateProvider asciiRuntime specConfigMethods noSidecar
    (mkConfig "vllm" "bedrock/claude-3" vllm []) emptyStore
  = (Some (HTTP (@NewHTTPProvider asciiRuntime "" "http://localhost:8000/v1" "")),
     "bedrock/claude-3", None).
Proof.
  intros vllm. split.
  - apply (@empty_key_fails_unless_bedrock asciiRuntime specConfigMethods noSidecar
             (mkConfig "vllm" "llama-3" vllm []) emptyStore
             "http://localhost:8000/v1" "" "llama-3").
    + left. reflexivity.
    + reflexivity.
    + reflexivity.
  - apply (@empty_key_fails_unless_bedrock asciiRuntime specConfigMethods noSidecar
             (mkConfig "vllm" "bedrock/claude-3" vllm []) emptyStore
             "http://localhost:8000/v1" "" "bedrock/claude-3").
    + left. reflexivity.
    + reflexivity.
    + reflexivity.
    + discriminate.
Defined.

(** ** The HTTP adapter *)

Section HTTPAdapter.
Context `{GoRuntime} `{Wire}.




(** C5.  When [Chat] has received a response whose status is outside 200..299
    and has read its body, it returns no result and the error made of the
    status code and the body as read; the decoder plays no part. *)
Theorem non_2xx_status_is_error (p : HTTPProvider)
    (messages : list Message) (tools : list ToolDefinition) (model : string)
    (options : gmap string any) (resp : Response) (body : string) :
  apiBase p <> "" ->
  sendChatRequest p messages tools model options = Ok resp ->
  ResponseBody resp = Ok body ->
  ~ (200 <= StatusCode resp < 300) ->
  Chat p messages tools model options
  = (None,
     Some ("API request failed:" ++ LF ++ "  Status: " ++ fmt_d (StatusCode resp)
           ++ LF ++ "  Body:   " ++ body)).
Proof.
  intros Hbase Hsend Hbody Hstatus. unfold Chat.
  apply String.eqb_neq in Hbase as ->. rewrite Hsend, Hbody.
  destruct (Z.eqb_spec (StatusCode resp) 200) as [E|_]; [lia | reflexivity].
Qed.


End HTTPAdapter.

Lemma non_2xx_status_is_error_witness :
  let p := @NewHTTPProvider asciiRuntime "sk-test" "https://down.example/v1/" "" in
  @Chat asciiRuntime textWire cannedWire p ["hello"] [] "gpt-4o" ∅
  = (None,
     Some ("API request failed:" ++ LF ++ "  Status: 503" ++ LF
           ++ "  Body:   upstream unavailable")).
Proof.
  intros p.
  apply (@non_2xx_status_is_error asciiRuntime textWire cannedWire p ["hello"] [] "gpt-4o" ∅
           {| StatusCode := 503; ResponseBody := Ok "upstream unavailable" |}
           "upstream unavailable").
  - discriminate.
  - reflexivity.
  - reflexivity.
  - simpl. lia.
Defined.


(** ** Refreshing the stored credential *)

Section CredentialRefresh.
Context `{AuthNetwork}.

(** C4.  When the stored credential needs a refresh and has a refresh token, and
    the token exchange fails, [authModelsCmd] leaves the credential file as it
    was and carries on with the stored credential: it prints what the listing
    prints for that credential. *)
Theorem failed_refresh_keeps_credential (now : Time)
    (creds : gmap string AuthCredential) (cred : AuthCredential) (e : error) :
  creds !! "google-antigravity" = Some cred ->
  NeedsRefresh now cred = true ->
  RefreshToken cred <> "" ->
  RefreshAccessToken cred GoogleAntigravityOAuthConfig = Err e ->
  authModelsCmd now (Stored creds) = (Stored creds, listModels cred).
Proof.
  intros Hget Hneeds Htoken Hfail. unfold authModelsCmd. simpl. rewrite Hget.
  apply nonEmpty_true in Htoken. now rewrite Hneeds, Htoken, Hfail.
Qed.

End CredentialRefresh.

Lemma failed_refresh_keeps_credential_witness :
  let creds : gmap string AuthCredential := {[ "google-antigravity" := staleCredential ]} in
  @authModelsCmd offlineAuth 900 (Stored creds)
  = (Stored creds, @listModels offlineAuth staleCredential).
Proof.
  intros creds.
  apply (@failed_refresh_keeps_credential offlineAuth 900 creds staleCredential
           "token endpoint unreachable").
  - reflexivity.
  - reflexivity.
  - discriminate.
  - reflexivity.
Defined.

(** ** [CreateProviderFromConfig]: which entries resolve *)

Section RouteResolution.
Context `{GoRuntime} `{ProviderConstructors}.

(** The HTTP case of [CreateProviderFromConfig] when the entry has a key or a base. *)
Lemma http_route_result (mc : ModelConfig) :
  mc_Model mc <> "" ->
  oneOf (fst (ExtractProtocol (mc_Model mc))) httpProtocols = true ->
  mc_APIKey mc <> "" \/ mc_APIBase mc <> "" ->
  CreateProviderFromConfig (Some mc)
  = (Some (HTTP (NewHTTPProvider (mc_APIKey mc)
                   (if (mc_APIBase mc =? "")%string
                    then getDefaultAPIBase (fst (ExtractProtocol (mc_Model mc)))
                    else mc_APIBase mc)
                   (mc_Proxy mc))),
     snd (ExtractProtocol (mc_Model mc)), None).
Proof.
  intros Hmodel Hhttp Hcred. unfold CreateProviderFromConfig.
  apply String.eqb_neq in Hmodel as ->.
  destruct (ExtractProtocol (mc_Model mc)) as [protocol modelID]. cbn [fst snd] in *.
  rewrite Hhttp.
  destruct Hcred as [Hk|Hb]; [apply String.eqb_neq in Hk as -> | apply String.eqb_neq in Hb as ->];
    [reflexivity | now rewrite andb_false_r].
Qed.

(** An entry for one of the HTTP protocols that has a key or a base resolves
    to the HTTP adapter on its own base, or on the default base of its protocol
    when it has none; the model id is the model string without the protocol. *)
Theorem http_route_resolves (mc : ModelConfig) :
  mc_Model mc <> "" ->
  oneOf (fst (ExtractProtocol (mc_Model mc))) httpProtocols = true ->
  mc_APIKey mc <> "" \/ mc_APIBase mc <> "" ->
  CreateProviderFromConfig (Some mc)
  = (Some (HTTP (NewHTTPProvider (mc_APIKey mc)
                   (if (mc_APIBase mc =? "")%string
                    then getDefaultAPIBase (fst (ExtractProtocol (mc_Model mc)))
                    else mc_APIBase mc)
                   (mc_Proxy mc))),
     snd (ExtractProtocol (mc_Model mc)), None).
Proof.
  intros Hmodel Hhttp Hcred. unfold CreateProviderFromConfig.
  apply String.eqb_neq in Hmodel as ->.
  destruct (ExtractProtocol (mc_Model mc)) as [protocol modelID]. cbn [fst snd] in *.
  rewrite Hhttp.
  destruct Hcred as [Hk|Hb]; [apply String.eqb_neq in Hk as -> | apply String.eqb_neq in Hb as ->];
    [reflexivity | now rewrite andb_false_r].
Qed.

(** An entry for Anthropic never fails: without [auth_method] "oauth" or "token"
    it resolves to the HTTP adapter even when key and base are both empty. *)
Lemma anthropic_route_resolves (mc : ModelConfig) :
  mc_Model mc <> "" ->
  fst (ExtractProtocol (mc_Model mc)) = "anthropic" ->
  exists provider,
    CreateProviderFromConfig (Some mc)
    = (Some provider, snd (ExtractProtocol (mc_Model mc)), None).
Proof.
  intros Hmodel Hproto. unfold CreateProviderFromConfig.
  apply String.eqb_neq in Hmodel as ->.
  destruct (ExtractProtocol (mc_Model mc)) as [protocol modelID].
  cbn [fst snd] in *. subst protocol. cbn.
  destruct ((mc_AuthMethod mc =? "oauth")%string || (mc_AuthMethod mc =? "token")%string);
    eexists; reflexivity.
Qed.

End RouteResolution.

Lemma http_route_resolves_witness :
  @CreateProviderFromConfig asciiRuntime noSidecar
    (Some (mkRoute "fast" "groq/llama-3.1-70b-versatile" "gsk-1" "" ""))
  = (Some (HTTP (@NewHTTPProvider asciiRuntime "gsk-1" "https://api.groq.com/openai/v1" "")),
     "llama-3.1-70b-versatile", None).
Proof.
  apply (@http_route_resolves asciiRuntime noSidecar
           (mkRoute "fast" "groq/llama-3.1-70b-versatile" "gsk-1" "" "")).
  - discriminate.
  - reflexivity.
  - left. discriminate.
Defined.

(** ** [ConvertProvidersToModelList] *)

Lemma Forall_appendIf (P : ModelConfig -> Prop) (c : bool) (e : ModelConfig)
    (r : list ModelConfig) :
  Forall P r -> (c = true -> P e) -> Forall P (appendIf c e r).
Proof.
  intros Hr He. unfold appendIf. destruct c; [|exact Hr].
  apply Forall_app. split; [exact Hr|]. constructor; [now apply He | constructor].
Qed.

Lemma appendIf_nil (c : bool) (e : ModelConfig) (r : list ModelConfig) :
  appendIf c e r = [] <-> c = false /\ r = [].
Proof.
  unfold appendIf. destruct c.
  - split; [|intros [? _]; discriminate]. intros E. now apply app_eq_nil in E as [_ ?].
  - tauto.
Qed.

Lemma appendIf_names (c : bool) (e : ModelConfig) (r : list ModelConfig) (l : list string) :
  map mc_ModelName r `sublist_of` List.removelast l ->
  List.last l "" = mc_ModelName e ->
  l <> [] ->
  map mc_ModelName (appendIf c e r) `sublist_of` l.
Proof.
  intros Hr Hlast Hl. rewrite (List.app_removelast_last "" Hl), Hlast.
  unfold appendIf. destruct c.
  - rewrite map_app. now apply sublist_app.
  - now apply sublist_inserts_r.
Qed.

Lemma hasKeyOrBase_true (c : ProviderConfig) :
  hasKeyOrBase c = true -> APIKey c <> "" \/ APIBase c <> "".
Proof.
  unfold hasKeyOrBase. rewrite orb_true_iff, !nonEmpty_true. tauto.
Qed.

Lemma hasKeyOrBase_false (c : ProviderConfig) :
  hasKeyOrBase c = false <-> APIKey c = "" /\ APIBase c = "".
Proof.
  unfold hasKeyOrBase, nonEmpty. rewrite orb_false_iff, !negb_false_iff, !String.eqb_eq.
  tauto.
Qed.

Section Migration.
Context `{GoRuntime} `{ProviderConstructors}.

(** Every entry that the migration produces can be resolved: apart from the
    GitHub Copilot entry, whose adapter has to reach its sidecar,
    [CreateProviderFromConfig] returns a provider and no error for it. *)
Theorem migrated_entries_resolve (cfg : option Config) :
  Forall (fun e =>
            mc_ModelName e = "github-copilot" \/
            exists provider modelID,
              CreateProviderFromConfig (Some e) = (Some provider, modelID, None))
    (ConvertProvidersToModelList cfg).
Proof.
  destruct cfg as [cfg|]; [|constructor]. unfold ConvertProvidersToModelList. cbv zeta.
  repeat (apply Forall_appendIf; [|intros Hc]); [constructor|..].
  all: try (right; apply hasKeyOrBase_true in Hc;
            eexists _, _; apply http_route_result; [discriminate | reflexivity | exact Hc]).
  - right. destruct (anthropic_route_resolves
                       (authEntry "anthropic" "anthropic/claude-3-sonnet"
                          (Anthropic (Providers cfg)))) as [provider E];
      [discriminate | reflexivity | eauto].
  - now left.
  - right. now eexists _, _.
Qed.

(** The migration gives at most one entry per provider, in a fixed order: the
    logical names of its result are a sublist of the seventeen names, so they
    are pairwise distinct and at most seventeen. *)
Theorem migrated_names_sublist (cfg : option Config) :
  let names := map mc_ModelName (ConvertProvidersToModelList cfg) in
  names `sublist_of` migratedNames /\ NoDup names /\ (length names <= 17)%nat.
Proof.
  intros names.
  assert (names `sublist_of` migratedNames) as Hsub.
  { subst names. destruct cfg as [cfg|]; [|apply sublist_nil_l].
    unfold ConvertProvidersToModelList. cbv zeta.
    repeat (apply appendIf_names; [|reflexivity|discriminate]).
    apply sublist_nil_l. }
  split; [exact Hsub|]. split.
  - apply (sublist_NoDup names migratedNames); [|exact Hsub].
    apply NoDup_ListNoDup. repeat constructor; simpl; intuition discriminate.
  - apply sublist_length in Hsub. exact Hsub.
Qed.

(** The migration yields nothing exactly when no provider has a key or a base,
    the Copilot entry has no connect mode either, and the Antigravity entry has
    neither key nor auth method.  In particular an [AuthMethod] alone on OpenAI
    or Anthropic creates no entry. *)
Theorem migration_empty_iff (cfg : Config) :
  let p := Providers cfg in
  ConvertProvidersToModelList (Some cfg) = [] <->
  Forall (fun c => APIKey c = "" /\ APIBase c = "")
    [OpenAI p; Anthropic p; OpenRouter p; Groq p; Zhipu p; VLLM p; Gemini p; Nvidia p;
     Ollama p; Moonshot p; ShengSuanYun p; DeepSeek p; Cerebras p; VolcEngine p; Qwen p] /\
  (APIKey (GitHubCopilot p) = "" /\ APIBase (GitHubCopilot p) = "" /\
   ConnectMode (GitHubCopilot p) = "") /\
  (APIKey (Antigravity p) = "" /\ AuthMethod (Antigravity p) = "").
Proof.
  intros p. unfold ConvertProvidersToModelList. cbv zeta. fold p.
  rewrite !appendIf_nil, !hasKeyOrBase_false, !orb_false_iff.
  unfold nonEmpty. rewrite !negb_false_iff, !String.eqb_eq.
  rewrite !Forall_cons, Forall_nil. tauto.
Qed.

Lemma elem_of_appendIf_here (e : ModelConfig) (r : list ModelConfig) :
  e ∈ appendIf true e r.
Proof. unfold appendIf. apply elem_of_app. right. apply list_elem_of_singleton. reflexivity. Qed.

Lemma elem_of_appendIf_later (c : bool) (e e' : ModelConfig) (r : list ModelConfig) :
  e ∈ r -> e ∈ appendIf c e' r.
Proof. intros He. unfold appendIf. destruct c; [apply elem_of_app; now left | exact He]. Qed.

End Migration.

Section MigrationEndpoints.
Context `{GoRuntime} `{ConfigMethods} `{ProviderConstructors}.

(** The case "zhipu" of the [switch]. *)
Lemma explicitProvider_zhipu (cfg : Config) (st : Store) (model : string) :
  explicitProvider cfg st model "zhipu"
  = let c := Zhipu (Providers cfg) in
    if nonEmpty (APIKey c) then
      Selected (APIKey c) (orDefault (APIBase c) "https://open.bigmodel.cn/api/paas/v4") ""
        model
    else Selected "" "" "" model.
Proof. reflexivity. Qed.

(** Migration moves a Zhipu account to another endpoint.  With a key and no
    base, the legacy path named "zhipu" resolves to the adapter on
    open.bigmodel.cn, while the entry "zhipu" that the migration makes of the
    same account has the model "openai/glm-4" and resolves to the adapter on
    api.openai.com. *)
Theorem migrated_zhipu_changes_endpoint (cfg : Config) (st : Store) :
  routeMiss cfg ->
  ToLower (Provider (Defaults (Agents cfg))) = "zhipu" ->
  APIKey (Zhipu (Providers cfg)) <> "" ->
  APIBase (Zhipu (Providers cfg)) = "" ->
  CreateProvider cfg st
  = (Some (HTTP (NewHTTPProvider (APIKey (Zhipu (Providers cfg)))
                   "https://open.bigmodel.cn/api/paas/v4" "")),
     requested cfg, None) /\
  exists e,
    e ∈ ConvertProvidersToModelList (Some cfg) /\
    mc_ModelName e = "zhipu" /\
    CreateProviderFromConfig (Some e)
    = (Some (HTTP (NewHTTPProvider (APIKey (Zhipu (Providers cfg)))
                     "https://api.openai.com/v1" (Proxy (Zhipu (Providers cfg))))),
       "glm-4", None).
Proof.
  intros Hmiss Hname Hkey Hbase. split.
  - rewrite (CreateProvider_legacy cfg st Hmiss). unfold selectLegacy.
    rewrite Hname, explicitProvider_zhipu. cbv zeta.
    apply nonEmpty_true in Hkey as Hk. rewrite Hk, Hbase.
    apply String.eqb_neq in Hkey. rewrite Hkey. cbn [andb orDefault].
    unfold finish. rewrite Hkey. reflexivity.
  - exists (keyedEntry "zhipu" "openai/glm-4" (Zhipu (Providers cfg))).
    split; [|split; [reflexivity|]].
    + unfold ConvertProvidersToModelList. cbv zeta.
      do 12 apply elem_of_appendIf_later.
      replace (hasKeyOrBase (Zhipu (Providers cfg))) with true.
      * apply elem_of_appendIf_here.
      * symmetry. unfold hasKeyOrBase. apply nonEmpty_true in Hkey as ->. reflexivity.
    + rewrite http_route_result; [|discriminate|reflexivity|now left].
      cbn [keyedEntry mc_APIBase mc_APIKey mc_Proxy mc_Model]. now rewrite Hbase.
Qed.

End MigrationEndpoints.

Lemma migrated_zhipu_changes_endpoint_witness :
  let cfg := mkConfig "zhipu" "glm-4.7"
               {| Anthropic := noProvider; OpenAI := noProvider; OpenRouter := noProvider;
                  Groq := noProvider; Zhipu := keyOnly "zk-1"; VLLM := noProvider;
                  Gemini := noProvider; Nvidia := noProvider; Ollama := noProvider;
                  Moonshot := noProvider; ShengSuanYun := noProvider; DeepSeek := noProvider;
                  Cerebras := noProvider; VolcEngine := noProvider;
                  GitHubCopilot := noProvider; Antigravity := noProvider;
                  Qwen := noProvider |} [] in
  @CreateProvider asciiRuntime specConfigMethods noSidecar cfg emptyStore
  = (Some (HTTP (@NewHTTPProvider asciiRuntime "zk-1"
                   "https://open.bigmodel.cn/api/paas/v4" "")),
     "glm-4.7", None) /\
  exists e,
    e ∈ ConvertProvidersToModelList (Some cfg) /\
    mc_ModelName e = "zhipu" /\
    @CreateProviderFromConfig asciiRuntime noSidecar (Some e)
    = (Some (HTTP (@NewHTTPProvider asciiRuntime "zk-1" "https://api.openai.com/v1" "")),
       "glm-4", None).
Proof.
  intros cfg.
  apply (@migrated_zhipu_changes_endpoint asciiRuntime specConfigMethods noSidecar
           cfg emptyStore).
  - left. reflexivity.
  - reflexivity.
  - discriminate.
  - reflexivity.
Defined.

(** ** The model name on the wire *)

Lemma indexFrom_first_slash (pre rest : string) : forall i,
  hasByte "/" pre = false ->
  indexFrom i (pre ++ String "/" rest) "/" = i + len pre.
Proof.
  induction pre as [|c pre IH]; intros i Hpre.
  - rewrite append_nil_l. cbn [indexFrom]. rewrite HasPrefix_byte. unfold len. simpl. lia.
  - rewrite append_cons. cbn [indexFrom]. rewrite HasPrefix_byte.
    simpl in Hpre. apply orb_false_iff in Hpre as [Hc Hpre].
    rewrite Ascii.eqb_sym, Hc, IH by exact Hpre.
    unfold len. simpl String.length. lia.
Qed.

Lemma indexFrom_no_slash (s : string) : forall i,
  hasByte "/" s = false -> indexFrom i s "/" = -1.
Proof.
  induction s as [|c s IH]; intros i Hs; [reflexivity|].
  cbn [indexFrom]. rewrite HasPrefix_byte.
  simpl in Hs. apply orb_false_iff in Hs as [Hc Hs].
  rewrite Ascii.eqb_sym, Hc. now apply IH.
Qed.

(** What [Chat] strips.  Only the part before the first ['/'] counts: when it is
    one of "moonshot", "nvidia", "groq", "ollama", "qwen", "cerebras", that part
    and the slash go and the rest is kept as it is; any other prefix stays, and
    so does a name without ['/']. *)
Theorem stripProviderPrefix_cases (model : string) :
  (forall pre rest,
     model = pre ++ "/" ++ rest -> hasByte "/" pre = false ->
     stripProviderPrefix model = if oneOf pre strippedPrefixes then rest else model) /\
  (hasByte "/" model = false -> stripProviderPrefix model = model).
Proof.
  split.
  - intros pre rest -> Hpre. unfold stripProviderPrefix, Index.
    change (pre ++ "/" ++ rest) with (pre ++ String "/" rest).
    rewrite (indexFrom_first_slash pre rest 0 Hpre), Z.add_0_l.
    rewrite slice_to_append, slice_from_append.
    destruct (Z.eqb_spec (len pre) (-1)) as [E|_]; [unfold len in E; lia | reflexivity].
  - intros Hs. unfold stripProviderPrefix, Index. now rewrite (indexFrom_no_slash model 0 Hs).
Qed.

Lemma stripProviderPrefix_cases_witness :
  stripProviderPrefix "moonshot/kimi-k2.5" = "kimi-k2.5" /\
  stripProviderPrefix "openrouter/anthropic/claude-3" = "openrouter/anthropic/claude-3" /\
  stripProviderPrefix "gpt-4o" = "gpt-4o".
Proof.
  split; [|split].
  - exact (proj1 (stripProviderPrefix_cases "moonshot/kimi-k2.5")
             "moonshot" "kimi-k2.5" eq_refl eq_refl).
  - exact (proj1 (stripProviderPrefix_cases "openrouter/anthropic/claude-3")
             "openrouter" "anthropic/claude-3" eq_refl eq_refl).
  - exact (proj2 (stripProviderPrefix_cases "gpt-4o") eq_refl).
Defined.

(** ** The request that [Chat] sends *)

Section ChatRequest.
Context `{GoRuntime} `{Wire}.

(** Lookup of a key in the request body, step by step through the four
    assignments. *)
Ltac body_cases :=
  unfold buildRequestBody;
  repeat match goal with
         | |- context [if ?c then _ else _] => destruct c eqn:?
         | |- context [match ?x with _ => _ end] => destruct x eqn:?
         end.

(** The token limit goes into the body under exactly one name, chosen by the
    model name as sent (lower-cased): "max_completion_tokens" when it contains
    "glm" or "o1", "max_tokens" otherwise.  When the option "max_tokens" is
    absent or not an [int], neither name is in the body. *)
Theorem token_limit_key (messages : list Message) (tools : list ToolDefinition)
    (model : string) (options : gmap string any) :
  let body := buildRequestBody messages tools model options in
  let lowerModel := ToLower (stripProviderPrefix model) in
  match options !! "max_tokens" with
  | Some (AInt maxTokens) =>
      if Contains lowerModel "glm" || Contains lowerModel "o1"
      then body !! "max_completion_tokens" = Some (AInt maxTokens) /\
           body !! "max_tokens" = None
      else body !! "max_tokens" = Some (AInt maxTokens) /\
           body !! "max_completion_tokens" = None
  | _ => body !! "max_tokens" = None /\ body !! "max_completion_tokens" = None
  end.
Proof.
  cbv zeta. body_cases; split;
    repeat first [ rewrite lookup_insert_eq | rewrite lookup_insert_ne by discriminate ];
    try reflexivity; try apply lookup_empty.
Qed.

(** Tools and the tool choice go together: with at least one tool the body has
    the tools and "tool_choice" is "auto"; without tools it has neither. *)
Theorem tools_imply_auto_choice (messages : list Message) (tools : list ToolDefinition)
    (model : string) (options : gmap string any) :
  let body := buildRequestBody messages tools model options in
  match tools with
  | [] => body !! "tools" = None /\ body !! "tool_choice" = None
  | _ => body !! "tools" = Some (ATools tools) /\
         body !! "tool_choice" = Some (AString "auto")
  end.
Proof.
  cbv zeta. destruct tools as [|t tools]; body_cases; try discriminate; split;
    repeat first [ rewrite lookup_insert_eq | rewrite lookup_insert_ne by discriminate ];
    try reflexivity; try apply lookup_empty.
Qed.

(** The temperature is passed on as given, except for a model whose name as
    sent contains both "kimi" and "k2" (in any letter case): then it is 1.
    Without a [float64] option "temperature" the body has no temperature. *)
Theorem temperature_override (messages : list Message) (tools : list ToolDefinition)
    (model : string) (options : gmap string any) :
  let body := buildRequestBody messages tools model options in
  let lowerModel := ToLower (stripProviderPrefix model) in
  body !! "temperature"
  = match options !! "temperature" with
    | Some (AFloat temperature) =>
        if Contains lowerModel "kimi" && Contains lowerModel "k2"
        then Some (AFloat 1%float) else Some (AFloat temperature)
    | _ => None
    end.
Proof.
  cbv zeta. body_cases;
    repeat first [ rewrite lookup_insert_eq | rewrite lookup_insert_ne by discriminate ];
    try reflexivity; try apply lookup_empty.
Qed.

End ChatRequest.

Section ChatHeaders.
Context `{GoRuntime} `{Wire}.

(** Once the body is marshalled and the request created, [Chat] hands exactly
    one request to the HTTP client: the request as created, with the content
    type set and, only when the adapter has a key, the bearer authorization.
    Without a key no authorization header is added. *)
Theorem chat_request_headers (p : HTTPProvider)
    (messages : list Message) (tools : list ToolDefinition) (model : string)
    (options : gmap string any) (jsonData : string) (req0 : Request) :
  json_Marshal (buildRequestBody messages tools model options) = Ok jsonData ->
  http_NewRequest "POST" (apiBase p ++ "/chat/completions") jsonData = Ok req0 ->
  exists req,
    sendChatRequest p messages tools model options
    = match http_Do (httpClient p) req with
      | Err err => Err ("failed to send request: " ++ err)
      | Ok resp => Ok resp
      end /\
    Method req = Method req0 /\ URL req = URL req0 /\ RequestBody req = RequestBody req0 /\
    Header req !! "Content-Type" = Some "application/json" /\
    Header req !! "Authorization"
    = (if (apiKey p =? "")%string then Header req0 !! "Authorization"
       else Some ("Bearer " ++ apiKey p)) /\
    (forall key, key <> "Content-Type" -> key <> "Authorization" ->
                 Header req !! key = Header req0 !! key).
Proof.
  intros Hmarshal Hnew. unfold sendChatRequest. rewrite Hmarshal, Hnew.
  eexists. split; [reflexivity|]. unfold nonEmpty.
  destruct (apiKey p =? "")%string; cbn [negb Header_Set Method URL RequestBody Header];
    repeat split;
    try (intros key Hct Hauth);
    repeat first [ rewrite lookup_insert_eq | rewrite lookup_insert_ne by congruence ];
    reflexivity.
Qed.

End ChatHeaders.

Lemma chat_request_headers_witness :
  let p := @NewHTTPProvider asciiRuntime "" "http://localhost:11434/v1" "" in
  exists req,
    @sendChatRequest asciiRuntime textWire cannedWire p ["hello"] [] "ollama/llama3" ∅
    = match @http_Do textWire cannedWire (httpClient p) req with
      | Err err => Err ("failed to send request: " ++ err)
      | Ok resp => Ok resp
      end /\
    Method req = "POST" /\ URL req = "http://localhost:11434/v1/chat/completions" /\
    RequestBody req = "{}" /\
    Header req !! "Content-Type" = Some "application/json" /\
    Header req !! "Authorization" = None /\
    (forall key, key <> "Content-Type" -> key <> "Authorization" ->
                 Header req !! key = (∅ : gmap string string) !! key).
Proof.
  intros p.
  exact (@chat_request_headers asciiRuntime textWire cannedWire p ["hello"] [] "ollama/llama3" ∅
           "{}" {| Method := "POST"; URL := "http://localhost:11434/v1/chat/completions";
                   Header := ∅; RequestBody := "{}" |} eq_refl eq_refl).
Defined.

(** ** The parsed response *)

Section ParsedResponse.
Context `{Wire}.

Lemma convertToolCall_normalizes (w : wireToolCall) : normalizes w (convertToolCall w).
Proof.
  unfold normalizes, convertToolCall.
  destruct (wt_Function w) as [wf|]; cbn; repeat split; eexists; repeat split.
Qed.

(** Once the envelope of the reply decodes and has a choice, [parseResponse]
    does not fail, whatever the tool-call arguments look like.  It uses the
    first choice only: content, finish reason and usage are taken over, and the
    tool calls of the result are those of that choice, one for one and in
    order, each with a function record that carries the name, the raw argument
    string and the thought signature (empty when the reply had no function). *)
Theorem tool_calls_normalized (body : string) (r : apiResponse)
    (choice : wireChoice) (others : list wireChoice) :
  json_Unmarshal_response body = Ok r ->
  Choices r = choice :: others ->
  exists resp,
    parseResponse body = (Some resp, None) /\
    Content resp = wm_Content (wc_Message choice) /\
    FinishReason resp = wc_FinishReason choice /\
    Usage resp = wire_Usage r /\
    Forall2 normalizes (wm_ToolCalls (wc_Message choice)) (ToolCalls resp).
Proof.
  intros Hdecode Hchoices. unfold parseResponse. rewrite Hdecode, Hchoices.
  eexists. split; [reflexivity|]. cbn. repeat split.
  induction (wm_ToolCalls (wc_Message choice)) as [|w ws IH]; cbn; constructor;
    [apply convertToolCall_normalizes | exact IH].
Qed.

(** Arguments that do not decode do not fail the call: the tool call of the
    result then has the argument string under the key "raw", next to whatever
    the decoder had already stored.  Arguments that decode are taken as
    decoded, and an empty argument string gives the empty mapping without
    consulting the decoder. *)
Theorem malformed_arguments_kept_raw (w : wireToolCall) (wf : wireFunction) :
  wt_Function w = Some wf ->
  let args := wf_Arguments wf in
  let tc := convertToolCall w in
  (args = "" -> tc_Arguments tc = ∅) /\
  (args <> "" ->
   match json_Unmarshal_arguments args with
   | (_, Some _) => tc_Arguments tc !! "raw" = Some (JString args)
   | (decoded, None) => tc_Arguments tc = decoded
   end).
Proof.
  intros Hf args tc. subst args tc. unfold convertToolCall. rewrite Hf. split.
  - intros ->. reflexivity.
  - intros Hargs. apply nonEmpty_true in Hargs. rewrite Hargs.
    destruct (json_Unmarshal_arguments (wf_Arguments wf)) as [decoded [e|]]; cbn.
    + apply lookup_insert_eq.
    + reflexivity.
Qed.

End ParsedResponse.

Lemma tool_calls_normalized_witness :
  exists resp,
    @parseResponse textWire toolCallWire "tool-call-reply" = (Some resp, None) /\
    Content resp = "" /\
    FinishReason resp = "tool_calls" /\
    Usage resp = Some 42 /\
    Forall2 normalizes
      [ {| wt_ID := "call_1"; wt_Type := "function";
           wt_Function := Some {| wf_Name := "read_file"; wf_Arguments := "{path:";
                                  wf_ThoughtSignature := "" |} |};
        {| wt_ID := "call_2"; wt_Type := "function"; wt_Function := None |} ]
      (ToolCalls resp).
Proof.
  exact (@tool_calls_normalized textWire toolCallWire "tool-call-reply" toolCallReply
           _ _ eq_refl eq_refl).
Defined.

Lemma malformed_arguments_kept_raw_witness :
  let w := {| wt_ID := "call_1"; wt_Type := "function";
              wt_Function := Some {| wf_Name := "read_file"; wf_Arguments := "{path:";
                                     wf_ThoughtSignature := "" |} |} in
  tc_Arguments (@convertToolCall textWire toolCallWire w) !! "raw" = Some (JString "{path:").
Proof.
  intros w.
  apply (@malformed_arguments_kept_raw textWire toolCallWire w
           {| wf_Name := "read_file"; wf_Arguments := "{path:"; wf_ThoughtSignature := "" |}
           eq_refl).
  discriminate.
Defined.

(** ** The base URL of the HTTP adapter *)

Lemma rev_string_append (a b : string) :
  rev_string (a ++ b) = rev_string b ++ rev_string a.
Proof.
  induction a as [|c a IH].
  - rewrite append_nil_l. simpl. now rewrite append_empty_r.
  - rewrite append_cons. simpl. now rewrite IH, append_assoc.
Qed.

Lemma rev_string_involutive (s : string) : rev_string (rev_string s) = s.
Proof.
  induction s as [|c s IH]; [reflexivity|].
  simpl. now rewrite rev_string_append, IH.
Qed.

Lemma slashes_snoc (n : nat) : slashes n ++ "/" = String "/" (slashes n).
Proof. induction n as [|n IH]; [reflexivity|]. simpl. now rewrite append_cons, IH. Qed.

Lemma rev_string_slashes (n : nat) : rev_string (slashes n) = slashes n.
Proof. induction n as [|n IH]; [reflexivity|]. simpl. now rewrite IH, slashes_snoc. Qed.

Lemma dropLeadingSlashes_spec (r : string) :
  exists n, r = slashes n ++ dropLeadingSlashes r /\
            forall t, dropLeadingSlashes r <> String "/" t.
Proof.
  induction r as [|c r (n & Hr & Hno)].
  - exists O. split; [reflexivity | discriminate].
  - simpl. destruct (Ascii.eqb_spec c "/") as [->|Hc].
    + exists (S n). split; [|exact Hno]. simpl. rewrite append_cons. now rewrite <- Hr.
    + exists O. split; [reflexivity|]. intros t E. injection E as E _. contradiction.
Qed.

Section AdapterBase.
Context `{GoRuntime}.

(** [NewHTTPProvider] stores the base without its trailing slashes and nothing
    else changed: the base given is the stored one followed by slashes only,
    and the stored one does not end in a slash.  So the URL [Chat] posts to,
    the stored base followed by "/chat/completions", has a single slash at
    the join. *)
Theorem NewHTTPProvider_base_has_no_trailing_slash (key base proxy : string) :
  let p := NewHTTPProvider key base proxy in
  apiKey p = key /\
  (exists n, base = apiBase p ++ slashes n) /\
  (forall t, apiBase p <> t ++ "/").
Proof.
  cbv zeta. cbn [NewHTTPProvider apiKey apiBase]. unfold TrimRightSlash.
  destruct (dropLeadingSlashes_spec (rev_string base)) as (n & Hr & Hno).
  split; [reflexivity|]. split.
  - exists n. rewrite <- (rev_string_involutive base) at 1.
    rewrite Hr at 1. now rewrite rev_string_append, rev_string_slashes.
  - intros t E. apply (f_equal rev_string) in E.
    rewrite rev_string_involutive, rev_string_append in E. simpl in E.
    exact (Hno _ E).
Qed.

End AdapterBase.

Section UnusableAdapters.
Context `{GoRuntime} `{ProviderConstructors} `{Wire}.

(** An adapter without a base sends nothing. *)
Lemma Chat_without_base (p : HTTPProvider)
    (messages : list Message) (tools : list ToolDefinition) (model : string)
    (options : gmap string any) :
  apiBase p = "" ->
  Chat p messages tools model options = (None, Some "API base not configured").
Proof. intros Hbase. unfold Chat. now rewrite Hbase. Qed.

Lemma httpProtocols_cases (protocol : string) :
  oneOf protocol httpProtocols = true ->
  protocol = "vllm" \/
  (getDefaultAPIBase protocol <> "" /\
   TrimRightSlash (getDefaultAPIBase protocol) = getDefaultAPIBase protocol).
Proof.
  unfold oneOf, httpProtocols. cbn [existsb].
  rewrite !orb_true_iff, !String.eqb_eq.
  intros Hp. repeat (destruct Hp as [->|Hp]; [first [now left | right; split; [discriminate | reflexivity]]|]).
  discriminate Hp.
Qed.

(** An entry of [model_list] with a key and no base resolves, for every HTTP
    protocol, to an adapter on the default base of the protocol.  That base is
    empty for "vllm" and for no other protocol: the "vllm" entry resolves
    without error to an adapter on which every [Chat] fails with "API base not
    configured" before anything is sent. *)
Theorem key_only_route_has_base_unless_vllm (mc : ModelConfig) :
  mc_Model mc <> "" ->
  oneOf (fst (ExtractProtocol (mc_Model mc))) httpProtocols = true ->
  mc_APIKey mc <> "" ->
  mc_APIBase mc = "" ->
  exists p,
    CreateProviderFromConfig (Some mc)
    = (Some (HTTP p), snd (ExtractProtocol (mc_Model mc)), None) /\
    apiBase p = getDefaultAPIBase (fst (ExtractProtocol (mc_Model mc))) /\
    (apiBase p = "" <-> fst (ExtractProtocol (mc_Model mc)) = "vllm") /\
    (fst (ExtractProtocol (mc_Model mc)) = "vllm" ->
     forall messages tools model options,
       Chat p messages tools model options = (None, Some "API base not configured")).
Proof.
  intros Hmodel Hhttp Hkey Hbase.
  rewrite (http_route_result mc Hmodel Hhttp (or_introl Hkey)), Hbase.
  eexists. split; [reflexivity|]. cbn [NewHTTPProvider apiBase String.eqb].
  destruct (httpProtocols_cases _ Hhttp) as [Hv|[Hne Htrim]].
  - rewrite Hv. repeat split; reflexivity.
  - rewrite Htrim. repeat split; try congruence.
    + intros Hv. rewrite Hv in Hne. now contradiction Hne.
    + intros Hv. rewrite Hv in Hne. now contradiction Hne.
Qed.

End UnusableAdapters.

Lemma key_only_route_has_base_unless_vllm_witness :
  let mc := mkRoute "local" "vllm/qwen2.5" "token-abc" "" "" in
  exists p,
    @CreateProviderFromConfig asciiRuntime noSidecar (Some mc)
    = (Some (HTTP p), "qwen2.5", None) /\
    apiBase p = "" /\
    (apiBase p = "" <-> "vllm" = "vllm") /\
    ("vllm" = "vllm" ->
     forall messages tools model options,
       @Chat asciiRuntime textWire cannedWire p messages tools model options
       = (None, Some "API base not configured")).
Proof.
  intros mc.
  apply (@key_only_route_has_base_unless_vllm asciiRuntime noSidecar textWire cannedWire mc).
  - discriminate.
  - reflexivity.
  - discriminate.
  - reflexivity.
Defined.

(** ** What the legacy selection steps guarantee *)

Section LegacySelection.
Context `{GoRuntime} `{ConfigMethods} `{ProviderConstructors}.

Lemma openrouter_base_nonEmpty (c : ProviderConfig) :
  (if nonEmpty (APIBase c) then APIBase c else "https://openrouter.ai/api/v1") <> "".
Proof.
  destruct (nonEmpty (APIBase c)) eqn:E; [now apply nonEmpty_true | discriminate].
Qed.

(** The explicit step never sets a proxy, and what it selects has a base. *)
Lemma explicitProvider_Selected_shape (cfg : Config) (st : Store) (model name : string)
    (k b px m : string) :
  explicitProvider cfg st model name = Selected k b px m ->
  px = "" /\ (k = "" /\ b = "" \/ b <> "").
Proof.
  unfold explicitProvider. intros E.
  repeat (head_case E; try discriminate E);
    injection E as <- <- <- <-; (split; [reflexivity|]);
    first [ left; split; reflexivity
          | right; first [ apply orDefault_nonEmpty; discriminate
                         | apply openrouter_base_nonEmpty
                         | apply nonEmpty_true; assumption ] ].
Qed.

Lemma detectFromModel_Selected_base (cfg : Config) (st : Store) (model lower : string)
    (k b px m : string) :
  detectFromModel cfg st model lower = Selected k b px m -> b <> "".
Proof.
  unfold detectFromModel, fromEntry. intros E.
  repeat (head_case E; try discriminate E);
    injection E as <- <- <- <-;
    first [ apply orDefault_nonEmpty; discriminate
          | apply openrouter_base_nonEmpty
          | apply nonEmpty_true; assumption ].
Qed.

Lemma selectLegacy_has_base (cfg : Config) (st : Store) (k b px m : string) :
  selectLegacy cfg st = Selected k b px m -> b <> "".
Proof.
  unfold selectLegacy. intros E.
  destruct (explicitProvider _ _ _ _) as [r|k0 b0 px0 m0] eqn:Ex; [discriminate E|].
  apply explicitProvider_Selected_shape in Ex as [_ [[-> ->]|Hb]].
  - cbn in E. now apply detectFromModel_Selected_base in E.
  - apply String.eqb_neq in Hb as Hb'. rewrite Hb', andb_false_r in E.
    now injection E as _ <- _ _.
Qed.

(** [finish] on what the selection steps give, with a key or a "bedrock/" model. *)
Lemma selectLegacy_finishes (cfg : Config) (st : Store) (k b px m : string) :
  routeMiss cfg ->
  selectLegacy cfg st = Selected k b px m ->
  k <> "" \/ HasPrefix m "bedrock/" = true ->
  b <> "" /\
  CreateProvider cfg st = (Some (HTTP (NewHTTPProvider k b px)), m, None).
Proof.
  intros Hmiss Hsel Hkey.
  pose proof (selectLegacy_has_base _ _ _ _ _ _ Hsel) as Hb. split; [exact Hb|].
  rewrite (CreateProvider_legacy cfg st Hmiss), Hsel. unfold finish.
  apply String.eqb_neq in Hb as ->.
  destruct Hkey as [Hk| ->]; [apply String.eqb_neq in Hk as ->; reflexivity|].
  now rewrite andb_false_r.
Qed.

(** The last check of [CreateProvider], for an empty base, never fires: once
    the selection steps have ended with values, a base is among them, so with a
    key (or a model that starts with "bedrock/") resolution succeeds with the
    HTTP adapter for them. *)
Theorem legacy_selection_resolves (cfg : Config) (st : Store) (k b px m : string) :
  routeMiss cfg ->
  selectLegacy cfg st = Selected k b px m ->
  k <> "" \/ HasPrefix m "bedrock/" = true ->
  b <> "" /\
  CreateProvider cfg st = (Some (HTTP (NewHTTPProvider k b px)), m, None).
Proof.
  intros Hmiss Hsel Hkey.
  pose proof (selectLegacy_has_base _ _ _ _ _ _ Hsel) as Hb. split; [exact Hb|].
  rewrite (CreateProvider_legacy cfg st Hmiss), Hsel. unfold finish.
  apply String.eqb_neq in Hb as ->.
  destruct Hkey as [Hk| ->]; [apply String.eqb_neq in Hk as ->; reflexivity|].
  now rewrite andb_false_r.
Qed.

(** The proxy of a provider named explicitly is not used.  When the explicit
    step selects a provider, the adapter is built without proxy whatever the
    [providers] section says; only the detection by model name passes the
    proxy on. *)
Theorem explicit_provider_ignores_proxy (cfg : Config) (st : Store) (k b px m : string) :
  routeMiss cfg ->
  explicitProvider cfg st (requested cfg) (ToLower (Provider (Defaults (Agents cfg))))
  = Selected k b px m ->
  k <> "" ->
  CreateProvider cfg st = (Some (HTTP (NewHTTPProvider k b "")), m, None) /\
  TransportProxy (httpClient (NewHTTPProvider k b "")) = None.
Proof.
  intros Hmiss Hex Hk. split; [|reflexivity].
  pose proof (explicitProvider_Selected_shape _ _ _ _ _ _ _ _ Hex) as [-> _].
  apply (selectLegacy_finishes cfg st k b "" m Hmiss); [|now left].
  unfold selectLegacy. rewrite Hex. now apply String.eqb_neq in Hk as ->.
Qed.

End LegacySelection.

Lemma legacy_selection_resolves_witness :
  let cfg := mkConfig "" "groq/llama-3.1-70b" groqBehindProxy [] in
  "https://api.groq.com/openai/v1" <> "" /\
  @CreateProvider asciiRuntime specConfigMethods noSidecar cfg emptyStore
  = (Some (HTTP (@NewHTTPProvider asciiRuntime "gsk-1" "https://api.groq.com/openai/v1"
                   "http://proxy:8080")),
     "groq/llama-3.1-70b", None).
Proof.
  intros cfg.
  apply (@legacy_selection_resolves asciiRuntime specConfigMethods noSidecar cfg emptyStore
           "gsk-1" "https://api.groq.com/openai/v1" "http://proxy:8080" "groq/llama-3.1-70b").
  - left. reflexivity.
  - reflexivity.
  - left. discriminate.
Defined.

Lemma explicit_provider_ignores_proxy_witness :
  let cfg := mkConfig "groq" "llama-3.1-70b" groqBehindProxy [] in
  @CreateProvider asciiRuntime specConfigMethods noSidecar cfg emptyStore
  = (Some (HTTP (@NewHTTPProvider asciiRuntime "gsk-1" "https://api.groq.com/openai/v1" "")),
     "llama-3.1-70b", None) /\
  TransportProxy
    (httpClient (@NewHTTPProvider asciiRuntime "gsk-1" "https://api.groq.com/openai/v1" ""))
  = None.
Proof.
  intros cfg.
  apply (@explicit_provider_ignores_proxy asciiRuntime specConfigMethods noSidecar
           cfg emptyStore "gsk-1" "https://api.groq.com/openai/v1" "" "llama-3.1-70b").
  - left. reflexivity.
  - reflexivity.
  - discriminate.
Defined.

Section LegacyFallback.
Context `{GoRuntime} `{ConfigMethods} `{ProviderConstructors}.

Lemma HasPrefix_first (s pre : string) (c : ascii) :
  HasPrefix s (String c pre) = true -> exists s', s = String c s'.
Proof.
  destruct s as [|d s]; [discriminate|]. intros E.
  change (((c =? d)%char && HasPrefix s pre) = true) in E.
  apply andb_true_iff in E as [E _]. apply Ascii.eqb_eq in E as ->. now exists s.
Qed.

Lemma detectFromModel_no_credentials (cfg : Config) (st : Store) (model lower : string) :
  Providers cfg = noProviders ->
  detectFromModel cfg st model lower
  = if HasPrefix model "openrouter/" || HasPrefix model "anthropic/"
       || HasPrefix model "openai/" || HasPrefix model "meta-llama/"
       || HasPrefix model "deepseek/" || HasPrefix model "google/"
    then Selected "" "https://openrouter.ai/api/v1" "" model
    else Returned (None, "", Some ("no API key configured for model: " ++ model)).
Proof.
  intros Hp. unfold detectFromModel. rewrite Hp. cbn [noProviders noProvider Moonshot
    OpenRouter Anthropic OpenAI Gemini Zhipu Groq Qwen Nvidia Cerebras Ollama VolcEngine VLLM
    APIKey APIBase AuthMethod Proxy nonEmpty String.eqb negb orb].
  rewrite !andb_false_r. reflexivity.
Qed.

Lemma openrouter_prefix_not_bedrock (model : string) :
  HasPrefix model "openrouter/" || HasPrefix model "anthropic/"
  || HasPrefix model "openai/" || HasPrefix model "meta-llama/"
  || HasPrefix model "deepseek/" || HasPrefix model "google/" = true ->
  HasPrefix model "bedrock/" = false.
Proof.
  rewrite !orb_true_iff.
  intros [[[[[E|E]|E]|E]|E]|E]; apply HasPrefix_first in E as [s' ->]; reflexivity.
Qed.

(** With no provider named, a model that starts with "openrouter/",
    "anthropic/", "openai/", "meta-llama/", "deepseek/" or "google/" is sent to
    OpenRouter (unless the Moonshot case applies first): the Anthropic, OpenAI
    and Gemini entries are not looked at.  Without an OpenRouter key resolution
    fails, whatever keys those entries hold. *)
Theorem prefixed_model_goes_to_openrouter (cfg : Config) (st : Store) :
  let model := requested cfg in
  let c := OpenRouter (Providers cfg) in
  routeMiss cfg ->
  Provider (Defaults (Agents cfg)) = "" ->
  APIKey (Moonshot (Providers cfg)) = "" ->
  HasPrefix model "openrouter/" || HasPrefix model "anthropic/"
  || HasPrefix model "openai/" || HasPrefix model "meta-llama/"
  || HasPrefix model "deepseek/" || HasPrefix model "google/" = true ->
  CreateProvider cfg st
  = if nonEmpty (APIKey c) then
      (Some (HTTP (NewHTTPProvider (APIKey c)
                     (if nonEmpty (APIBase c) then APIBase c
                      else "https://openrouter.ai/api/v1")
                     (Proxy c))),
       model, None)
    else (None, "", Some ("no API key configured for provider (model: " ++ model ++ ")")).
Proof.
  intros model c Hmiss Hname Hmoon Hprefix.
  rewrite (CreateProvider_legacy cfg st Hmiss). unfold selectLegacy. rewrite Hname.
  change (ToLower "") with "".
  change (explicitProvider cfg st (requested cfg) "") with (Selected "" "" "" (requested cfg)).
  cbn [String.eqb andb]. unfold detectFromModel. rewrite Hmoon.
  change (nonEmpty "") with false. rewrite andb_false_r. fold model. rewrite Hprefix.
  fold c. unfold finish. rewrite (openrouter_prefix_not_bedrock model Hprefix).
  pose proof (openrouter_base_nonEmpty c) as Hb. apply String.eqb_neq in Hb. rewrite Hb.
  unfold nonEmpty. destruct (APIKey c =? "")%string; reflexivity.
Qed.

End LegacyFallback.

Lemma prefixed_model_goes_to_openrouter_witness :
  let cfg := mkConfig "" "anthropic/claude-3-sonnet"
               (providersWith (keyOnly "sk-ant-1") noProvider noProvider noProvider) [] in
  @CreateProvider asciiRuntime specConfigMethods noSidecar cfg emptyStore
  = (None, "",
     Some "no API key configured for provider (model: anthropic/claude-3-sonnet)").
Proof.
  intros cfg.
  apply (@prefixed_model_goes_to_openrouter asciiRuntime specConfigMethods noSidecar
           cfg emptyStore).
  - left. reflexivity.
  - reflexivity.
  - reflexivity.
  - reflexivity.
Defined.

Section UnconfiguredProviders.
Context `{GoRuntime} `{ConfigMethods} `{ProviderConstructors}.

(** Rewrites with every hypothesis that says a name differs from a label. *)
Ltac use_label_mismatches :=
  repeat match goal with
         | Hne : (_ =? _)%string = false |- _ => rewrite !Hne; clear Hne
         end.

Lemma explicitProvider_unknown (cfg : Config) (st : Store) (model name : string) :
  oneOf name knownProviderNames = false ->
  explicitProvider cfg st model name = Selected "" "" "" model.
Proof.
  unfold oneOf, knownProviderNames. cbn [existsb]. rewrite !orb_false_iff.
  intros Hne. repeat match goal with Hc : _ /\ _ |- _ => destruct Hc end.
  unfold explicitProvider, oneOf. cbn [existsb]. use_label_mismatches. cbn [orb].
  now destruct (nonEmpty name).
Qed.

(** A provider name that is none of the names [CreateProvider] knows is
    ignored without a message: resolution goes on as if no provider had been
    named, by the model name alone. *)
Theorem unknown_provider_name_is_ignored (cfg : Config) (st : Store) :
  routeMiss cfg ->
  routeMiss (withProvider "" cfg) ->
  oneOf (ToLower (Provider (Defaults (Agents cfg)))) knownProviderNames = false ->
  CreateProvider cfg st = CreateProvider (withProvider "" cfg) st.
Proof.
  intros Hmiss Hmiss' Hname.
  rewrite (CreateProvider_legacy cfg st Hmiss),
    (CreateProvider_legacy (withProvider "" cfg) st Hmiss').
  unfold selectLegacy. rewrite (explicitProvider_unknown cfg st _ _ Hname).
  reflexivity.
Qed.

Lemma explicitProvider_no_credentials (cfg : Config) (st : Store) (model name : string) :
  Providers cfg = noProviders ->
  oneOf name keylessProviderNames = false ->
  explicitProvider cfg st model name = Selected "" "" "" model.
Proof.
  intros Hp. unfold oneOf, keylessProviderNames. cbn [existsb]. rewrite !orb_false_iff.
  intros Hne. repeat match goal with Hc : _ /\ _ |- _ => destruct Hc end.
  unfold explicitProvider, oneOf. rewrite Hp. cbn [existsb]. use_label_mismatches.
  cbn [noProviders noProvider Groq OpenAI Anthropic OpenRouter Zhipu Gemini VLLM ShengSuanYun
       Cerebras DeepSeek Qwen VolcEngine APIKey APIBase AuthMethod nonEmpty String.eqb negb orb].
  repeat match goal with
         | |- context [if ?c then _ else _] => destruct c
         end; reflexivity.
Qed.

(** Without any provider entry filled in, resolution by the legacy path fails
    for every model and every credential file, unless the provider named is
    one of the adapters that need no key (the CLI bridges, Copilot,
    Antigravity).  The error is one of the two "no API key configured"
    messages. *)
Theorem no_credentials_no_provider (cfg : Config) (st : Store) :
  Providers cfg = noProviders ->
  routeMiss cfg ->
  oneOf (ToLower (Provider (Defaults (Agents cfg)))) keylessProviderNames = false ->
  CreateProvider cfg st
  = (None, "", Some ("no API key configured for model: " ++ requested cfg)) \/
  CreateProvider cfg st
  = (None, "", Some ("no API key configured for provider (model: " ++ requested cfg ++ ")")).
Proof.
  intros Hp Hmiss Hname. rewrite (CreateProvider_legacy cfg st Hmiss). unfold selectLegacy.
  rewrite (explicitProvider_no_credentials cfg st _ _ Hp Hname). cbn [String.eqb andb].
  rewrite (detectFromModel_no_credentials cfg st _ _ Hp).
  destruct (HasPrefix _ "openrouter/" || _ || _ || _ || _ || _) eqn:Hprefix.
  - right. unfold finish. now rewrite (openrouter_prefix_not_bedrock _ Hprefix).
  - now left.
Qed.

End UnconfiguredProviders.

Lemma unknown_provider_name_is_ignored_witness :
  let cfg := mkConfig "grok" "groq/llama-3.1-70b" groqBehindProxy [] in
  @CreateProvider asciiRuntime specConfigMethods noSidecar cfg emptyStore
  = @CreateProvider asciiRuntime specConfigMethods noSidecar (withProvider "" cfg) emptyStore.
Proof.
  intros cfg.
  apply (@unknown_provider_name_is_ignored asciiRuntime specConfigMethods noSidecar
           cfg emptyStore).
  - left. reflexivity.
  - left. reflexivity.
  - reflexivity.
Defined.

Lemma no_credentials_no_provider_witness :
  @CreateProvider asciiRuntime specConfigMethods noSidecar DefaultConfig emptyStore
  = (None, "", Some ("no API key configured for model: " ++ "glm-4.7")) \/
  @CreateProvider asciiRuntime specConfigMethods noSidecar DefaultConfig emptyStore
  = (None, "", Some ("no API key configured for provider (model: " ++ "glm-4.7" ++ ")")).
Proof.
  apply (@no_credentials_no_provider asciiRuntime specConfigMethods noSidecar
           DefaultConfig emptyStore).
  - reflexivity.
  - left. reflexivity.
  - reflexivity.
Defined.

(** ** Logging out *)

(** [picoclaw auth logout] without a usable "--provider" value removes every
    credential: that is the case for no arguments at all, for an empty value,
    and for a flag in last position, whose value is missing.  The credential
    file is emptied and the configuration handed to [SaveConfig] has no auth
    method left on OpenAI, Anthropic and Antigravity. *)
Theorem logout_without_provider_removes_all (args : list string)
    (creds : gmap string AuthCredential) (appCfg : Config) :
  parseLogoutArgs "" args = "" ->
  let r := authLogoutCmd args (Stored creds) (Ok appCfg) in
  storeAfter r = Stored ∅ /\
  exitStatus r = 0 /\
  stdout r = Println "Logged out from all providers" /\
  exists cfg',
    savedConfig r = Some cfg' /\
    AuthMethod (OpenAI (Providers cfg')) = "" /\
    AuthMethod (Anthropic (Providers cfg')) = "" /\
    AuthMethod (Antigravity (Providers cfg')) = "".
Proof.
  intros Hparse. unfold authLogoutCmd. rewrite Hparse. cbn.
  repeat split. eexists. split; [reflexivity|]. repeat split.
Qed.

Lemma logout_without_provider_removes_all_witness :
  let creds : gmap string AuthCredential :=
    {[ "google-antigravity" := staleCredential ]} in
  let r := authLogoutCmd ["--provider"] (Stored creds) (Ok DefaultConfig) in
  storeAfter r = Stored ∅ /\
  exitStatus r = 0 /\
  stdout r = Println "Logged out from all providers" /\
  exists cfg',
    savedConfig r = Some cfg' /\
    AuthMethod (OpenAI (Providers cfg')) = "" /\
    AuthMethod (Anthropic (Providers cfg')) = "" /\
    AuthMethod (Antigravity (Providers cfg')) = "".
Proof.
  intros creds.
  apply (logout_without_provider_removes_all ["--provider"] creds DefaultConfig).
  reflexivity.
Defined.

(** [picoclaw auth logout --provider P] removes the credential stored under [P]
    and no other.  In the configuration it clears the auth method of OpenAI for
    "openai", of Anthropic for "anthropic", of Antigravity for
    "google-antigravity" and "antigravity", and leaves the auth methods alone
    for any other name. *)
Theorem logout_removes_only_named (args : list string)
    (creds : gmap string AuthCredential) (appCfg : Config) :
  let provider := parseLogoutArgs "" args in
  provider <> "" ->
  let r := authLogoutCmd args (Stored creds) (Ok appCfg) in
  exitStatus r = 0 /\
  GetCredential (storeAfter r) provider = (None, None) /\
  (forall other, other <> provider ->
                 GetCredential (storeAfter r) other = GetCredential (Stored creds) other) /\
  exists cfg',
    savedConfig r = Some cfg' /\
    AuthMethod (OpenAI (Providers cfg'))
    = (if (provider =? "openai")%string then "" else AuthMethod (OpenAI (Providers appCfg))) /\
    AuthMethod (Anthropic (Providers cfg'))
    = (if (provider =? "anthropic")%string then ""
       else AuthMethod (Anthropic (Providers appCfg))) /\
    AuthMethod (Antigravity (Providers cfg'))
    = (if (provider =? "google-antigravity")%string || (provider =? "antigravity")%string
       then "" else AuthMethod (Antigravity (Providers appCfg))).
Proof.
  intros provider Hne r. subst r. unfold authLogoutCmd. fold provider.
  apply nonEmpty_true in Hne as Hne'. rewrite Hne'. cbn [DeleteCredential].
  cbn [exitStatus storeAfter savedConfig GetCredential]. split; [reflexivity|].
  split; [now rewrite lookup_delete_eq|].
  split; [intros other Hother; now rewrite lookup_delete_ne by congruence|].
  eexists. split; [reflexivity|]. unfold oneOf. cbn [existsb]. rewrite !orb_false_r.
  destruct (String.eqb_spec provider "openai") as [->|_]; [repeat split|].
  destruct (String.eqb_spec provider "anthropic") as [->|_]; [repeat split|].
  destruct ((provider =? "google-antigravity")%string || (provider =? "antigravity")%string);
    repeat split.
Qed.

Lemma logout_removes_only_named_witness :
  let creds : gmap string AuthCredential :=
    {[ "google-antigravity" := staleCredential ]} in
  let r := authLogoutCmd ["-p"; "antigravity"] (Stored creds) (Ok DefaultConfig) in
  exitStatus r = 0 /\
  GetCredential (storeAfter r) "antigravity" = (None, None) /\
  (forall other, other <> "antigravity" ->
                 GetCredential (storeAfter r) other = GetCredential (Stored creds) other) /\
  exists cfg',
    savedConfig r = Some cfg' /\
    AuthMethod (OpenAI (Providers cfg')) = "" /\
    AuthMethod (Anthropic (Providers cfg')) = "" /\
    AuthMethod (Antigravity (Providers cfg')) = "".
Proof.
  intros creds.
  apply (logout_removes_only_named ["-p"; "antigravity"] creds DefaultConfig).
  discriminate.
Defined.

(** ** Logging in, and resolving afterwards *)

Section LoginThenResolve.
Context `{GoRuntime} `{ConfigMethods} `{ProviderConstructors} `{AuthFlows}.

(** After [picoclaw auth login --provider anthropic] the pasted token is what
    resolution uses.  The command stores the credential under "anthropic" and
    hands to [SaveConfig] the configuration with Anthropic's auth method set to
    "token" (the flag "--device-code" makes no difference).  With that
    configuration and credential file, a provider named "anthropic" or
    "claude" resolves on the legacy path to the Claude adapter with the pasted
    token, whatever API key the Anthropic entry holds. *)
Theorem paste_token_login_then_resolve (args : list string) (useDeviceCode : bool)
    (creds : gmap string AuthCredential) (appCfg : Config) (cred : AuthCredential) :
  parseLoginArgs "" false args = ("anthropic", useDeviceCode) ->
  LoginPasteToken "anthropic" = Ok cred ->
  let r := authLoginCmd args (Stored creds) (Ok appCfg) in
  let cfg' := setAnthropicAuth "token" appCfg in
  exitStatus r = 0 /\
  storeAfter r = Stored (<["anthropic" := cred]> creds) /\
  savedConfig r = Some cfg' /\
  (routeMiss cfg' ->
   oneOf (ToLower (Provider (Defaults (Agents appCfg)))) ["anthropic"; "claude"] = true ->
   CreateProvider cfg' (storeAfter r)
   = (Some (ClaudeProviderWithTokenSource (AccessToken cred) ClaudeTokenSource),
      requested appCfg, None)).
Proof.
  intros Hparse Hlogin r cfg'. subst r.
  unfold authLoginCmd. rewrite Hparse. cbn. unfold authLoginPasteToken. rewrite Hlogin. cbn.
  repeat split.
  intros Hmiss Hname. rewrite (CreateProvider_legacy cfg' _ Hmiss). unfold selectLegacy.
  change (Provider (Defaults (Agents cfg'))) with (Provider (Defaults (Agents appCfg))).
  unfold oneOf in Hname. cbn [existsb] in Hname. rewrite orb_false_r in Hname.
  apply orb_true_iff in Hname as [Hname|Hname]; apply String.eqb_eq in Hname;
    rewrite Hname; cbn; rewrite orb_true_r; cbn; now rewrite lookup_insert_eq.
Qed.

(** After [picoclaw auth login --provider openai] the OAuth credential is what
    resolution uses: it is stored under "openai", the configuration saved has
    OpenAI's auth method "oauth", and with them a provider named "openai" or
    "gpt" resolves to the Codex adapter with the access token and account id
    of the login. *)
Theorem openai_login_then_resolve (args : list string) (useDeviceCode : bool)
    (creds : gmap string AuthCredential) (appCfg : Config) (cred : AuthCredential) :
  parseLoginArgs "" false args = ("openai", useDeviceCode) ->
  (if useDeviceCode then LoginDeviceCode OpenAIOAuthConfig
   else LoginBrowser OpenAIOAuthConfig) = Ok cred ->
  let r := authLoginCmd args (Stored creds) (Ok appCfg) in
  let cfg' := setOpenAIAuth "oauth" appCfg in
  exitStatus r = 0 /\
  storeAfter r = Stored (<["openai" := cred]> creds) /\
  savedConfig r = Some cfg' /\
  (routeMiss cfg' ->
   oneOf (ToLower (Provider (Defaults (Agents appCfg)))) ["openai"; "gpt"] = true ->
   CreateProvider cfg' (storeAfter r)
   = (Some (CodexProviderWithTokenSource (AccessToken cred) (AccountID cred)
              CodexTokenSource),
      requested appCfg, None)).
Proof.
  intros Hparse Hlogin r cfg'. subst r.
  unfold authLoginCmd. rewrite Hparse. cbn. unfold authLoginOpenAI. rewrite Hlogin. cbn.
  repeat split; try (now destruct (nonEmpty (AccountID cred))).
  intros Hmiss Hname.
  rewrite (CreateProvider_legacy cfg' _ Hmiss). unfold selectLegacy.
  change (Provider (Defaults (Agents cfg'))) with (Provider (Defaults (Agents appCfg))).
  rewrite orb_false_r in Hname.
  apply orb_true_iff in Hname as [Hname|Hname]; apply String.eqb_eq in Hname;
    rewrite Hname; cbn; rewrite orb_true_r; cbn; now rewrite lookup_insert_eq.
Qed.

End LoginThenResolve.

Section AntigravityLogin.
Context `{GoRuntime} `{ConfigMethods} `{ProviderConstructors} `{AuthFlows}.

(** The credential that [authLoginGoogleAntigravity] stores: the one of the
    browser login, under the name "google-antigravity", whether or not the
    e-mail address and the project id could be fetched. *)
Lemma antigravity_login_store (creds : gmap string AuthCredential) (loaded : result Config)
    (cred0 : AuthCredential) :
  LoginBrowser GoogleAntigravityOAuthConfig = Ok cred0 ->
  let r := authLoginGoogleAntigravity (Stored creds) loaded in
  exitStatus r = 0 /\
  exists c,
    storeAfter r = Stored (<["google-antigravity" := c]> creds) /\
    cred_Provider c = "google-antigravity" /\
    AccessToken c = AccessToken cred0 /\
    RefreshToken c = RefreshToken cred0 /\
    match FetchAntigravityProjectID (AccessToken cred0) with
    | Ok projectID => ProjectID c = projectID
    | Err _ => ProjectID c = ProjectID cred0
    end.
Proof.
  intros Hlogin. unfold authLoginGoogleAntigravity. rewrite Hlogin.
  cbv zeta. cbn [AccessToken].
  destruct (fetchGoogleUserEmail (AccessToken cred0)) as [email|e1]; cbn [AccessToken];
    destruct (FetchAntigravityProjectID (AccessToken cred0)) as [projectID|e2];
    destruct loaded as [appCfg|e3]; cbn; (split; [reflexivity|]);
    eexists; (split; [reflexivity|]); repeat split.
Qed.

Lemma antigravity_login_config (creds : gmap string AuthCredential) (appCfg : Config)
    (cred0 : AuthCredential) :
  LoginBrowser GoogleAntigravityOAuthConfig = Ok cred0 ->
  let name := Provider (Defaults (Agents appCfg)) in
  let cfg1 := setAntigravityAuth "oauth" appCfg in
  let cfg2 := if (name =? "")%string then withProvider "antigravity" cfg1 else cfg1 in
  savedConfig (authLoginGoogleAntigravity (Stored creds) (Ok appCfg))
  = Some (if (Provider (Defaults (Agents cfg2)) =? "antigravity")%string
             || (Provider (Defaults (Agents cfg2)) =? "google-antigravity")%string
          then withModel "gemini-3-flash" cfg2 else cfg2).
Proof.
  intros Hlogin. unfold authLoginGoogleAntigravity. rewrite Hlogin.
  cbv zeta. cbn [AccessToken].
  destruct (fetchGoogleUserEmail (AccessToken cred0)) as [email|e1]; cbn [AccessToken];
    destruct (FetchAntigravityProjectID (AccessToken cred0)) as [projectID|e2];
    reflexivity.
Qed.

(** A first login to Google Antigravity makes it the provider in use.  When the
    configuration names no provider, the configuration saved names
    "antigravity" with the model "gemini-3-flash" and the auth method "oauth",
    and resolving with it on the legacy path gives the Antigravity adapter
    for "gemini-3-flash", whatever the credential file holds. *)
Theorem antigravity_login_then_resolve (creds : gmap string AuthCredential)
    (appCfg : Config) (cred0 : AuthCredential) :
  LoginBrowser GoogleAntigravityOAuthConfig = Ok cred0 ->
  Provider (Defaults (Agents appCfg)) = "" ->
  exists cfg',
    savedConfig (authLoginGoogleAntigravity (Stored creds) (Ok appCfg)) = Some cfg' /\
    Provider (Defaults (Agents cfg')) = "antigravity" /\
    requested cfg' = "gemini-3-flash" /\
    AuthMethod (Antigravity (Providers cfg')) = "oauth" /\
    (routeMiss cfg' ->
     forall st, CreateProvider cfg' st = (Some AntigravityProvider, "gemini-3-flash", None)).
Proof.
  intros Hlogin Hname. rewrite (antigravity_login_config creds appCfg cred0 Hlogin), Hname.
  eexists. split; [reflexivity|]. cbn. repeat split.
  intros Hmiss st. now rewrite (CreateProvider_legacy _ st Hmiss).
Qed.

(** With another provider already named, the login leaves provider and model as
    they are and only sets the auth method of the Antigravity entry; the
    command prints "Config updated: provider=antigravity,
    model=gemini-3-flash" all the same. *)
Theorem antigravity_login_keeps_named_provider (creds : gmap string AuthCredential)
    (appCfg : Config) (cred0 : AuthCredential) :
  LoginBrowser GoogleAntigravityOAuthConfig = Ok cred0 ->
  let name := Provider (Defaults (Agents appCfg)) in
  name <> "" -> name <> "antigravity" -> name <> "google-antigravity" ->
  let r := authLoginGoogleAntigravity (Stored creds) (Ok appCfg) in
  savedConfig r = Some (setAntigravityAuth "oauth" appCfg) /\
  exists before,
    stdout r
    = before ++ Println "Config updated: provider=antigravity, model=gemini-3-flash"
             ++ Println ("Try it: picoclaw agent -m " ++ DQ ++ "Hello world" ++ DQ).
Proof.
  intros Hlogin name Hn1 Hn2 Hn3 r. subst r. split.
  - rewrite (antigravity_login_config creds appCfg cred0 Hlogin). fold name.
    apply String.eqb_neq in Hn1, Hn2, Hn3. rewrite Hn1.
    change (Provider (Defaults (Agents (setAntigravityAuth "oauth" appCfg)))) with name.
    now rewrite Hn2, Hn3.
  - unfold authLoginGoogleAntigravity. rewrite Hlogin. cbv zeta. cbn [AccessToken].
    destruct (fetchGoogleUserEmail (AccessToken cred0)) as [email|e1]; cbn [AccessToken];
      destruct (FetchAntigravityProjectID (AccessToken cred0)) as [projectID|e2];
      cbn [SetCredential stdout];
      eexists (_ ++ Println (LF ++ checkMark ++ " Google Antigravity login successful!"));
      symmetry; apply append_assoc.
Qed.

(** Logging out under the short name does not undo the login.  After
    [picoclaw auth login --provider antigravity], the command
    [picoclaw auth logout --provider antigravity] deletes the entry
    "antigravity" of the credential file, but the login has stored the
    credential under "google-antigravity": it is still there.  Logging out
    under the long name removes it. *)
Theorem antigravity_short_name_logout_keeps_credential
    (creds : gmap string AuthCredential) (loaded loaded' : result Config)
    (cred0 : AuthCredential) :
  LoginBrowser GoogleAntigravityOAuthConfig = Ok cred0 ->
  let login := authLoginCmd ["--provider"; "antigravity"] (Stored creds) loaded in
  (exists c,
     GetCredential
       (storeAfter (authLogoutCmd ["--provider"; "antigravity"] (storeAfter login) loaded'))
       "google-antigravity" = (Some c, None) /\
     AccessToken c = AccessToken cred0) /\
  GetCredential
    (storeAfter (authLogoutCmd ["--provider"; "google-antigravity"] (storeAfter login) loaded'))
    "google-antigravity" = (None, None).
Proof.
  intros Hlogin login. subst login.
  change (authLoginCmd ["--provider"; "antigravity"] (Stored creds) loaded)
    with (authLoginGoogleAntigravity (Stored creds) loaded).
  destruct (antigravity_login_store creds loaded cred0 Hlogin)
    as (_ & c & Hstore & _ & Htoken & _).
  rewrite Hstore. unfold authLogoutCmd. cbn. split.
  - exists c. split; [|exact Htoken].
    rewrite lookup_delete_ne by discriminate. now rewrite lookup_insert_eq.
  - now rewrite lookup_delete_eq.
Qed.

(** [picoclaw auth login] touches nothing unless the provider is spelled
    "openai", "anthropic", "google-antigravity" or "antigravity": for any other
    name, a missing one included, the credential file is as before and no
    configuration is saved. *)
Theorem login_with_other_provider_changes_nothing (args : list string) (st : Store)
    (loaded : result Config) (provider : string) (useDeviceCode : bool) :
  parseLoginArgs "" false args = (provider, useDeviceCode) ->
  oneOf provider ["openai"; "anthropic"; "google-antigravity"; "antigravity"] = false ->
  let r := authLoginCmd args st loaded in
  storeAfter r = st /\ savedConfig r = None /\ exitStatus r = 0.
Proof.
  intros Hparse Hother. unfold authLoginCmd. rewrite Hparse.
  unfold oneOf in *. cbn [existsb] in *. rewrite !orb_false_iff in Hother.
  destruct Hother as (-> & -> & -> & -> & _).
  cbn. now destruct (provider =? "")%string.
Qed.

End AntigravityLogin.

Section LoginThenModels.
Context `{AuthFlows}.

(** A login to Google Antigravity succeeds even when the project id cannot be
    fetched, and then [picoclaw auth models] has nothing to work with: the
    credential stored has no project id, so the command (with a token that
    needs no refresh) prints "No project ID stored. Try logging in again." and
    fetches nothing. *)
Theorem login_without_project_blocks_models (now : Time)
    (creds : gmap string AuthCredential) (loaded : result Config)
    (cred0 : AuthCredential) (e : error) :
  LoginBrowser GoogleAntigravityOAuthConfig = Ok cred0 ->
  ProjectID cred0 = "" ->
  FetchAntigravityProjectID (AccessToken cred0) = Err e ->
  NeedsRefresh now cred0 = false ->
  let login := authLoginGoogleAntigravity (Stored creds) loaded in
  exitStatus login = 0 /\
  authModelsCmd now (storeAfter login)
  = (storeAfter login, Println "No project ID stored. Try logging in again.").
Proof.
  intros Hlogin Hproject Hfetch Hfresh login. subst login.
  unfold authLoginGoogleAntigravity. rewrite Hlogin. cbv zeta. cbn [AccessToken].
  destruct (fetchGoogleUserEmail (AccessToken cred0)) as [email|e1]; cbn [AccessToken];
    rewrite Hfetch; destruct loaded as [appCfg|e3]; cbn [SetCredential exitStatus storeAfter];
    (split; [reflexivity|]);
    unfold authModelsCmd; cbn [GetCredential]; rewrite lookup_insert_eq;
    unfold NeedsRefresh in *; cbn [ExpiresAt]; rewrite Hfresh; cbn [andb];
    unfold listModels; cbn [ProjectID]; rewrite Hproject; reflexivity.
Qed.

End LoginThenModels.

Lemma paste_token_login_then_resolve_witness :
  let appCfg := mkConfig "claude" "claude-3-5-sonnet"
                  (providersWith (keyOnly "sk-ant-old") noProvider noProvider noProvider) [] in
  let r := @authLoginCmd offlineAuth cannedFlows ["-p"; "anthropic"] emptyStore (Ok appCfg) in
  @CreateProvider asciiRuntime specConfigMethods noSidecar
    (setAnthropicAuth "token" appCfg) (storeAfter r)
  = (Some (ClaudeProviderWithTokenSource "sk-ant-pasted" ClaudeTokenSource),
     "claude-3-5-sonnet", None).
Proof.
  intros appCfg r.
  apply (@paste_token_login_then_resolve asciiRuntime specConfigMethods noSidecar
           offlineAuth cannedFlows ["-p"; "anthropic"] false ∅ appCfg
           {| AccessToken := "sk-ant-pasted"; RefreshToken := ""; AccountID := "";
              ExpiresAt := 0; cred_Provider := "anthropic"; cred_AuthMethod := "token";
              Email := ""; ProjectID := "" |} eq_refl eq_refl).
  - left. reflexivity.
  - reflexivity.
Defined.

Lemma openai_login_then_resolve_witness :
  let appCfg := mkConfig "gpt" "gpt-5" noProviders [] in
  let r := @authLoginCmd offlineAuth cannedFlows ["--provider"; "openai"] emptyStore
             (Ok appCfg) in
  @CreateProvider asciiRuntime specConfigMethods noSidecar
    (setOpenAIAuth "oauth" appCfg) (storeAfter r)
  = (Some (CodexProviderWithTokenSource "browser-token" "acct-7" CodexTokenSource),
     "gpt-5", None).
Proof.
  intros appCfg r.
  apply (@openai_login_then_resolve asciiRuntime specConfigMethods noSidecar
           offlineAuth cannedFlows ["--provider"; "openai"] false ∅ appCfg
           {| AccessToken := "browser-token"; RefreshToken := "refresh-9";
              AccountID := "acct-7"; ExpiresAt := 0; cred_Provider := "openai";
              cred_AuthMethod := "oauth"; Email := ""; ProjectID := "" |} eq_refl eq_refl).
  - left. reflexivity.
  - reflexivity.
Defined.

Lemma antigravity_login_then_resolve_witness :
  exists cfg',
    savedConfig (@authLoginGoogleAntigravity offlineAuth cannedFlows emptyStore
                   (Ok DefaultConfig)) = Some cfg' /\
    Provider (Defaults (Agents cfg')) = "antigravity" /\
    requested cfg' = "gemini-3-flash" /\
    AuthMethod (Antigravity (Providers cfg')) = "oauth" /\
    (@routeMiss specConfigMethods cfg' ->
     forall st,
       @CreateProvider asciiRuntime specConfigMethods noSidecar cfg' st
       = (Some AntigravityProvider, "gemini-3-flash", None)).
Proof.
  exact (@antigravity_login_then_resolve asciiRuntime specConfigMethods noSidecar
           offlineAuth cannedFlows ∅ DefaultConfig _ eq_refl eq_refl).
Defined.

Lemma antigravity_login_keeps_named_provider_witness :
  let appCfg := mkConfig "openai" "gpt-4o" noProviders [] in
  let r := @authLoginGoogleAntigravity offlineAuth cannedFlows emptyStore (Ok appCfg) in
  savedConfig r = Some (setAntigravityAuth "oauth" appCfg) /\
  exists before,
    stdout r
    = before ++ Println "Config updated: provider=antigravity, model=gemini-3-flash"
             ++ Println ("Try it: picoclaw agent -m " ++ DQ ++ "Hello world" ++ DQ).
Proof.
  intros appCfg.
  apply (@antigravity_login_keeps_named_provider offlineAuth cannedFlows ∅ appCfg _ eq_refl);
    discriminate.
Defined.

Lemma antigravity_short_name_logout_keeps_credential_witness :
  let login := @authLoginCmd offlineAuth cannedFlows ["--provider"; "antigravity"] emptyStore
                 (Ok DefaultConfig) in
  (exists c,
     GetCredential
       (storeAfter (authLogoutCmd ["--provider"; "antigravity"] (storeAfter login)
                      (Ok DefaultConfig)))
       "google-antigravity" = (Some c, None) /\
     AccessToken c = "browser-token") /\
  GetCredential
    (storeAfter (authLogoutCmd ["--provider"; "google-antigravity"] (storeAfter login)
                   (Ok DefaultConfig)))
    "google-antigravity" = (None, None).
Proof.
  exact (@antigravity_short_name_logout_keeps_credential offlineAuth cannedFlows ∅
           (Ok DefaultConfig) (Ok DefaultConfig) _ eq_refl).
Defined.

Lemma login_with_other_provider_changes_nothing_witness :
  let r := @authLoginCmd offlineAuth cannedFlows ["--provider"; "--device-code"] emptyStore
             (Ok DefaultConfig) in
  storeAfter r = emptyStore /\ savedConfig r = None /\ exitStatus r = 0.
Proof.
  exact (@login_with_other_provider_changes_nothing offlineAuth cannedFlows
           ["--provider"; "--device-code"] emptyStore (Ok DefaultConfig)
           "--device-code" false eq_refl eq_refl).
Defined.

Lemma login_without_project_blocks_models_witness :
  let login := @authLoginGoogleAntigravity offlineAuth cannedFlows emptyStore
                 (Ok DefaultConfig) in
  exitStatus login = 0 /\
  @authModelsCmd offlineAuth 900 (storeAfter login)
  = (storeAfter login, Println "No project ID stored. Try logging in again.").
Proof.
  exact (@login_without_project_blocks_models offlineAuth cannedFlows 900 ∅
           (Ok DefaultConfig) _ "forbidden" eq_refl eq_refl eq_refl eq_refl).
Defined.

Section RefreshSuccess.
Context `{AuthNetwork}.

(** When the stored credential needs a refresh, has a refresh token and the
    token exchange succeeds, [authModelsCmd] stores the new credential in place
    of the old one, leaves every other entry of the credential file alone, and
    lists the models with the new credential. *)
Theorem successful_refresh_is_stored (now : Time)
    (creds : gmap string AuthCredential) (cred refreshed : AuthCredential) :
  creds !! "google-antigravity" = Some cred ->
  NeedsRefresh now cred = true ->
  RefreshToken cred <> "" ->
  RefreshAccessToken cred GoogleAntigravityOAuthConfig = Ok refreshed ->
  let r := authModelsCmd now (Stored creds) in
  snd r = listModels refreshed /\
  GetCredential (fst r) "google-antigravity" = (Some refreshed, None) /\
  (forall other, other <> "google-antigravity" ->
                 GetCredential (fst r) other = GetCredential (Stored creds) other).
Proof.
  intros Hget Hneeds Htoken Hok. unfold authModelsCmd. cbn [GetCredential]. rewrite Hget.
  apply nonEmpty_true in Htoken. rewrite Hneeds, Htoken, Hok. cbn.
  split; [reflexivity|]. split; [now rewrite lookup_insert_eq|].
  intros other Hother. now rewrite lookup_insert_ne by congruence.
Qed.

End RefreshSuccess.

Lemma successful_refresh_is_stored_witness :
  let creds : gmap string AuthCredential :=
    {[ "google-antigravity" := staleCredential ]} in
  let r := @authModelsCmd onlineAuth 900 (Stored creds) in
  snd r = @listModels onlineAuth refreshedCredential /\
  GetCredential (fst r) "google-antigravity" = (Some refreshedCredential, None) /\
  (forall other, other <> "google-antigravity" ->
                 GetCredential (fst r) other = GetCredential (Stored creds) other).
Proof.
  intros creds.
  apply (@successful_refresh_is_stored onlineAuth 900 creds staleCredential refreshedCredential).
  - reflexivity.
  - reflexivity.
  - discriminate.
  - reflexivity.
Defined.

Section BlankModel.
Context `{GoRuntime} `{ProviderConstructors}.

(** A model string of white space only gets past the check "model is
    required": with a key, [CreateProviderFromConfig] resolves it to the HTTP
    adapter of the default protocol "openai" and returns the empty model id. *)
Theorem blank_model_resolves_with_empty_id (mc : ModelConfig) :
  mc_Model mc <> "" ->
  TrimSpace (mc_Model mc) = "" ->
  mc_APIKey mc <> "" ->
  CreateProviderFromConfig (Some mc)
  = (Some (HTTP (NewHTTPProvider (mc_APIKey mc)
                   (if (mc_APIBase mc =? "")%string then "https://api.openai.com/v1"
                    else mc_APIBase mc)
                   (mc_Proxy mc))),
     "", None).
Proof.
  intros Hmodel Hblank Hkey.
  assert (ExtractProtocol (mc_Model mc) = ("openai", "")) as Hparse
    by (unfold ExtractProtocol; now rewrite Hblank).
  rewrite (http_route_result mc Hmodel); [|now rewrite Hparse|now left].
  now rewrite Hparse.
Qed.

End BlankModel.

Lemma blank_model_resolves_with_empty_id_witness :
  @CreateProviderFromConfig asciiRuntime noSidecar (Some (mkRoute "blank" "  " "sk-1" "" ""))
  = (Some (HTTP (@NewHTTPProvider asciiRuntime "sk-1" "https://api.openai.com/v1" "")),
     "", None).
Proof.
  apply (@blank_model_resolves_with_empty_id asciiRuntime noSidecar
           (mkRoute "blank" "  " "sk-1" "" "")).
  - discriminate.
  - reflexivity.
  - discriminate.
Defined.
